(** * License verification and activation, admin-role verification

    A shallow embedding of [server/lib/adminAuth.ts] and
    [server/routes/license.ts].

    - Firestore documents are records whose optional fields are [option]s
      ([None] is a field that is absent, [undefined] once read).
    - Collections are finite maps from document id to document data; a
      query snapshot lists the matching documents in the order of the
      collection's [map_to_list].
    - Instants are integers, milliseconds since the epoch; an ISO-8601
      string is represented by the instant it denotes.  One request
      observes one instant [now].
    - A handler is a function from the store to an outcome (a value or a
      thrown error) and the store after the call.  A store call fails
      only where Firestore documents it: [updateDoc] on a document that
      does not exist.  Transport failures are outside the model. *)

From Stdlib Require Import ZArith Bool Ascii String List Lia.
From stdpp Require Import base option strings gmap fin_maps pretty.

Local Open Scope string_scope.
Local Open Scope Z_scope.

(** ** JavaScript value conventions used by the handlers *)

Module JS.

(** Truthiness of a string-valued field: [undefined] and the empty
    string are falsy. *)
Definition truthyStr (s : option string) : bool :=
  match s with
  | Some EmptyString => false
  | Some _ => true
  | None => false
  end.

(** Truthiness of a boolean-valued field. *)
Definition truthyBool (b : option bool) : bool :=
  match b with
  | Some true => true
  | _ => false
  end.

(** [x || d] on a string-valued field. *)
Definition orStr (s : option string) (d : string) : string :=
  match s with
  | Some EmptyString => d
  | Some v => v
  | None => d
  end.

(** [x || 0] on a number-valued field ([0] itself is falsy and is
    replaced by [0]). *)
Definition orZero (n : option Z) : Z :=
  match n with
  | Some v => v
  | None => 0
  end.

(** [x || false] on a boolean-valued field. *)
Definition orFalse (b : option bool) : bool := truthyBool b.

(** [a < b] on number-valued fields: [undefined] converts to [NaN],
    and every comparison with [NaN] is [false]. *)
Definition lt (a b : option Z) : bool :=
  match a, b with
  | Some x, Some y => x <? y
  | _, _ => false
  end.

(** [x === true] on a field holding any JSON value. *)
Inductive value : Type :=
| VBool (b : bool)
| VNum (n : Z)
| VStr (s : string).

Definition strictlyTrue (v : option value) : bool :=
  match v with
  | Some (VBool true) => true
  | _ => false
  end.

(** [s.startsWith(p)] *)
Definition startsWith (p s : string) : bool := String.prefix p s.

(** [s.substring(n)] *)
Fixpoint substringFrom (n : nat) (s : string) : string :=
  match n, s with
  | O, _ => s
  | S n', String _ s' => substringFrom n' s'
  | S _, EmptyString => EmptyString
  end.

(** [s.replace(/-/g, "")] *)
Fixpoint removeDashes (s : string) : string :=
  match s with
  | EmptyString => EmptyString
  | String c s' =>
      if Ascii.eqb c "-"%char then removeDashes s'
      else String c (removeDashes s')
  end.

(** [s.toUpperCase()] on the letters a to z; every other byte is kept.
    This is what [toUpperCase] does on a string of ASCII characters
    ([isAscii] below); a cased letter outside ASCII is not mapped. *)
Definition upperChar (c : ascii) : ascii :=
  let n := nat_of_ascii c in
  if (Nat.leb 97 n && Nat.leb n 122)%bool then ascii_of_nat (n - 32) else c.

Fixpoint toUpperCase (s : string) : string :=
  match s with
  | EmptyString => EmptyString
  | String c s' => String (upperChar c) (toUpperCase s')
  end.

(** Every character of [s] satisfies [p]. *)
Fixpoint allChars (p : ascii -> bool) (s : string) : bool :=
  match s with
  | EmptyString => true
  | String c s' => p c && allChars p s'
  end.

(** The strings of ASCII characters: every byte is below 128. *)
Definition isAsciiChar (c : ascii) : bool := Nat.ltb (nat_of_ascii c) 128.

Definition isAscii (s : string) : bool := allChars isAsciiChar s.

(** Neither a dash nor one of the letters a to z. *)
Definition isKeyChar (c : ascii) : bool :=
  negb (Ascii.eqb c "-"%char)
  && negb (Nat.leb 97 (nat_of_ascii c) && Nat.leb (nat_of_ascii c) 122).

(** Interpolation of an integer in a template literal. *)
Definition numToString (n : Z) : string := pretty n.

End JS.

(** ** Outcomes: a value, or a thrown error *)

Inductive Error : Type :=
| NotFoundError          (* updateDoc: no document to update *)
| RangeError             (* Date.prototype.toISOString: invalid time value *)
| ProviderError (code : string).  (* rejected by the identity provider *)

Inductive outcome (A : Type) : Type :=
| Returned (a : A)
| Thrown (e : Error).

Arguments Returned {A} a.
Arguments Thrown {A} e.

Definition obind {A B} (m : outcome A) (k : A -> outcome B) : outcome B :=
  match m with
  | Returned a => k a
  | Thrown e => Thrown e
  end.

(** [try { m } catch (err) { h }] *)
Definition otry {A} (m : outcome A) (h : Error -> outcome A) : outcome A :=
  match m with
  | Returned a => Returned a
  | Thrown e => h e
  end.

(** ** server/lib/adminAuth.ts *)

Module AdminAuth.

(** The part of the express request that is read:
    [req.headers.authorization]. *)
Record Request : Type := { authorization : option string }.

Record Claims : Type := { admin : option JS.value }.

(** [{}] *)
Definition noClaims : Claims := {| admin := None |}.

Record DecodedIdToken : Type :=
  { customClaims : option Claims;
    uid : string;
    email : option string }.

Record UserRecord : Type := { userCustomClaims : option Claims }.

(** The object [verifyAdminToken] resolves to;
    [resultUid] and [resultEmail] are its optional [uid] and [email]. *)
Record AdminCheck : Type :=
  { isAdmin : bool;
    resultUid : option string;
    resultEmail : option string }.

Definition notAdmin : AdminCheck :=
  {| isAdmin := false; resultUid := None; resultEmail := None |}.

(** The identity provider reached through [getAuth()]: each call
    resolves to a value or rejects. *)
Class Auth : Type :=
  { verifyIdToken : string -> outcome DecodedIdToken;
    getUser : string -> outcome UserRecord }.

Section WithAuth.
Context {auth : Auth}.

Definition verifyAdminToken (req : Request) : outcome AdminCheck :=
  otry
    (let authHeader := authorization req in
     if negb (JS.truthyStr authHeader)
        || negb (JS.startsWith "Bearer " (default "" authHeader))
     then Returned notAdmin
     else
       let token := JS.substringFrom 7 (default "" authHeader) in
       obind (verifyIdToken token) (fun decodedToken =>
       let customClaims := default noClaims (customClaims decodedToken) in
       let isAdmin := JS.strictlyTrue (admin customClaims) in
       Returned {| isAdmin := isAdmin;
                   resultUid := Some (uid decodedToken);
                   resultEmail := email decodedToken |}))
    (fun err => Returned notAdmin).

Definition isAdminUser (uid : string) : outcome bool :=
  otry
    (obind (getUser uid) (fun userRecord =>
     let customClaims := default noClaims (userCustomClaims userRecord) in
     Returned (JS.strictlyTrue (admin customClaims))))
    (fun err => Returned false).

End WithAuth.

End AdminAuth.

(** ** Documents of the store *)

(** [users/{id}] *)
Module User.
Record data : Type :=
  { id : option string;
    email : option string;
    messageCount : option Z;
    isBanned : option bool;
    banReason : option string;
    isSuspended : option bool }.
End User.

(** [users/{id}/license/current] *)
Module LicenseDoc.
Record data : Type :=
  { plan : string;
    licenseKey : option string;
    expiresAt : Z;
    isActive : option bool;
    messageCount : option Z;
    messageLimit : option Z;
    lastResetDate : option Z;
    userId : option string }.
End LicenseDoc.

(** [licenseKeys/{id}].  [expiresAt] is [None] when the stored value
    is one from which [new Date] builds an invalid date. *)
Module LicenseKey.
Record data : Type :=
  { key : string;
    plan : string;
    messageLimit : option Z;
    expiresAt : option Z;
    isActive : option bool;
    usedBy : option string }.
End LicenseKey.

(** [users/{id}/warnings/{wid}]; [id] is a field named [id] inside the
    document, when there is one. *)
Module WarningDoc.
Record data : Type :=
  { id : option string;
    isRead : option bool;
    message : string }.
End WarningDoc.

(** [config/maintenance] *)
Module MaintenanceConfig.
Record data : Type := { enabled : option bool }.
End MaintenanceConfig.

(** ** The shared API types of the responses *)

Module Api.

(** A warning as listed in a verdict: [{ id: doc.id, ...doc.data() }]. *)
Record Warning : Type :=
  { warningId : string;
    warningIsRead : option bool;
    warningMessage : string }.

Inductive AlertType : Type := modal | banner.
Inductive Severity : Type := critical | warning.

Record SecurityAlert : Type :=
  { type : AlertType;
    title : string;
    message : string;
    severity : Severity;
    dismissible : bool }.

Record LicenseVerificationResponse : Type :=
  { valid : bool;
    plan : string;
    messageLimit : Z;
    messageCount : Z;
    canSendMessage : bool;
    expiresAt : Z;
    warnings : list Warning;
    isBanned : bool;
    isSuspended : bool;
    alerts : list SecurityAlert;
    maintenanceMode : bool }.

(** The body given to [res.json]: a verdict, or an error object
    [{ valid?, error }]. *)
Inductive Body : Type :=
| VerdictBody (v : LicenseVerificationResponse)
| ErrorBody (valid : option bool) (error : string).

(** [res.status(code).json(body)]; [res.json(body)] has status 200. *)
Record Response : Type := { status : Z; body : Body }.

(** The request body [{ email, licenseKey, deviceId }]. *)
Record LicenseVerificationRequest : Type :=
  { email : option string;
    licenseKey : option string;
    deviceId : option string }.

End Api.

(** ** The document store *)

Record Store : Type :=
  { users : gmap string User.data;
    licenses : gmap string LicenseDoc.data;      (* by the user id of the path *)
    userWarnings : gmap string (gmap string WarningDoc.data);
    licenseKeys : gmap string LicenseKey.data;
    maintenance : option MaintenanceConfig.data }.

(** Asynchronous store computations. *)
Definition Async (A : Type) : Type := Store -> outcome A * Store.

Definition aret {A} (a : A) : Async A := fun st => (Returned a, st).

Definition athrow {A} (e : Error) : Async A := fun st => (Thrown e, st).

Definition abind {A B} (m : Async A) (k : A -> Async B) : Async B :=
  fun st =>
    match m st with
    | (Returned a, st') => k a st'
    | (Thrown e, st') => (Thrown e, st')
    end.

(** [try { m } catch (err) { h }] and [m.catch(h)] *)
Definition acatch {A} (m : Async A) (h : Error -> Async A) : Async A :=
  fun st =>
    match m st with
    | (Returned a, st') => (Returned a, st')
    | (Thrown e, st') => h e st'
    end.

Notation "'const' x ':=' 'await' m 'in' k" := (abind m (fun x => k))
  (at level 10, x name, m at level 100, k at level 200).
Notation "'await' m 'in' k" := (abind m (fun _ => k))
  (at level 10, m at level 100, k at level 200).

(** ** The firebase/firestore calls of the handlers *)

Module Firestore.

(** The documents a query snapshot lists, [snapshot.docs]. *)
Definition usersByEmail (st : Store) (email : option string)
  : list (string * User.data) :=
  filter (fun d => User.email d.2 = email) (map_to_list (users st)).

Definition unreadWarnings (st : Store) (uid : string)
  : list (string * WarningDoc.data) :=
  filter (fun d => WarningDoc.isRead d.2 = Some false)
         (map_to_list (default ∅ (userWarnings st !! uid))).

Definition activeLicenseKeys (st : Store) (k : string)
  : list (string * LicenseKey.data) :=
  filter (fun d => LicenseKey.key d.2 = k /\ LicenseKey.isActive d.2 = Some true)
         (map_to_list (licenseKeys st)).

(** [getDocs(query(collection(db, "users"), where("email", "==", email)))] *)
Definition getUsersByEmail (email : option string)
  : Async (list (string * User.data)) :=
  fun st => (Returned (usersByEmail st email), st).

(** [getDoc(doc(db, "users", uid, "license", "current"))], then [.data()] *)
Definition getLicense (uid : string) : Async (option LicenseDoc.data) :=
  fun st => (Returned (licenses st !! uid), st).

(** [getDocs(query(collection(db, "users", uid, "warnings"),
    where("isRead", "==", false)))] *)
Definition getUnreadWarnings (uid : string)
  : Async (list (string * WarningDoc.data)) :=
  fun st => (Returned (unreadWarnings st uid), st).

(** [getDocs(query(collection(db, "licenseKeys"),
    where("key", "==", k), where("isActive", "==", true)))] *)
Definition getActiveLicenseKeys (k : string)
  : Async (list (string * LicenseKey.data)) :=
  fun st => (Returned (activeLicenseKeys st k), st).

(** [getDoc(doc(db, "config", "maintenance"))], then [.data()] *)
Definition getMaintenanceConfig : Async (option MaintenanceConfig.data) :=
  fun st => (Returned (maintenance st), st).

Definition withLicenses (f : gmap string LicenseDoc.data -> gmap string LicenseDoc.data)
    (st : Store) : Store :=
  {| users := users st;
     licenses := f (licenses st);
     userWarnings := userWarnings st;
     licenseKeys := licenseKeys st;
     maintenance := maintenance st |}.

Definition withUsers (f : gmap string User.data -> gmap string User.data)
    (st : Store) : Store :=
  {| users := f (users st);
     licenses := licenses st;
     userWarnings := userWarnings st;
     licenseKeys := licenseKeys st;
     maintenance := maintenance st |}.

(** [updateDoc(doc(db, "users", uid, "license", "current"), fields)]:
    rewrites the given fields of an existing document, and rejects
    when there is no document. *)
Definition updateLicense (uid : string)
    (fields : LicenseDoc.data -> LicenseDoc.data) : Async unit :=
  fun st =>
    match licenses st !! uid with
    | Some d => (Returned tt, withLicenses (insert uid (fields d)) st)
    | None => (Thrown NotFoundError, st)
    end.

(** [setDoc(doc(db, "users", uid, "license", "current"), data)]:
    creates or replaces the document. *)
Definition setLicense (uid : string) (d : LicenseDoc.data) : Async unit :=
  fun st => (Returned tt, withLicenses (insert uid d) st).

(** [updateDoc(userDoc.ref, fields)] *)
Definition updateUser (docId : string)
    (fields : User.data -> User.data) : Async unit :=
  fun st =>
    match users st !! docId with
    | Some d => (Returned tt, withUsers (insert docId (fields d)) st)
    | None => (Thrown NotFoundError, st)
    end.

End Firestore.

(** ** server/lib/licenseUtils, as the routes use it *)

Module LicenseUtils.

Inductive Reason : Type := Banned | Suspended | Expired | QuotaReached.

(** The object [validateLicense] returns. *)
Record Validation : Type := { valid : bool; reason : option Reason }.

(** The three imported functions.  Each reads the clock; the instant
    read is their last argument. *)
Class Utils : Type :=
  { validateLicense :
      string -> Z -> Z -> bool -> bool -> Z -> Validation;
    isLicenseExpired : Z -> Z -> bool;
    getDaysRemaining : Z -> Z -> Z }.

Definition msPerDay : Z := 24 * 60 * 60 * 1000.

Section FromSpec.

(** The message ceiling of a plan, [None] when no limit applies. *)
Variable planLimit : string -> option Z.

(** Modelled from the spec: [isLicenseExpired] of lib/licenseUtils is
    not among the sources; true iff [now > expiresAt]. *)
Definition specIsLicenseExpired (expiresAt now : Z) : bool :=
  now >? expiresAt.

(** Modelled from the spec: [getDaysRemaining] of lib/licenseUtils is
    not among the sources; the ceiling of [expiresAt - now] in whole
    days, negative or zero when expired. *)
Definition specGetDaysRemaining (expiresAt now : Z) : Z :=
  - ((now - expiresAt) / msPerDay).

(** Modelled from the spec: [validateLicense] of lib/licenseUtils is
    not among the sources; not valid if banned, suspended, expired on
    a plan other than "Gratuit", or at the message ceiling of the
    plan when it has one; valid otherwise. *)
Definition specValidateLicense (plan : string) (messageCount expiresAt : Z)
    (isBanned isSuspended : bool) (now : Z) : Validation :=
  if isBanned then {| valid := false; reason := Some Banned |}
  else if isSuspended then {| valid := false; reason := Some Suspended |}
  else if specIsLicenseExpired expiresAt now
          && negb (bool_decide (plan = "Gratuit"))
       then {| valid := false; reason := Some Expired |}
  else match planLimit plan with
       | Some limit =>
           if messageCount >=? limit
           then {| valid := false; reason := Some QuotaReached |}
           else {| valid := true; reason := None |}
       | None => {| valid := true; reason := None |}
       end.

Definition specUtils : Utils :=
  {| validateLicense := specValidateLicense;
     isLicenseExpired := specIsLicenseExpired;
     getDaysRemaining := specGetDaysRemaining |}.

End FromSpec.

End LicenseUtils.

(** ** server/routes/license.ts *)

Module LicenseRoutes.

Import Api.

Definition json (body : Body) : Response := {| status := 200; body := body |}.

Definition statusJson (code : Z) (body : Body) : Response :=
  {| status := code; body := body |}.

(** The alert literals pushed by [handleLicenseVerify]. *)
Definition expiredAlert : SecurityAlert :=
  {| type := modal;
     title := "Licence Expirée";
     message := "Votre licence a expiré. Veuillez renouveler votre abonnement.";
     severity := critical;
     dismissible := false |}.

Definition expiresSoonAlert (daysRemaining : Z) : SecurityAlert :=
  {| type := banner;
     title := "Licence Expires Bientôt";
     message := "Votre licence expire dans " +:+ JS.numToString daysRemaining
                +:+ " jour(s).";
     severity := warning;
     dismissible := true |}.

Definition bannedAlert (banReason : option string) : SecurityAlert :=
  {| type := modal;
     title := "Compte Banni";
     message := "Votre compte a été banni. Raison: "
                +:+ JS.orStr banReason "Non spécifiée";
     severity := critical;
     dismissible := false |}.

Definition suspendedAlert : SecurityAlert :=
  {| type := modal;
     title := "Compte Suspendu";
     message := "Votre compte a été temporairement suspendu.";
     severity := critical;
     dismissible := false |}.

(** [{ id: doc.id, ...doc.data() }] *)
Definition toWarning (d : string * WarningDoc.data) : Warning :=
  {| warningId := default d.1 (WarningDoc.id d.2);
     warningIsRead := WarningDoc.isRead d.2;
     warningMessage := WarningDoc.message d.2 |}.

Definition getMaintenanceMode : Async bool :=
  acatch
    (const configSnapshot := await Firestore.getMaintenanceConfig in
     aret (JS.orFalse (configSnapshot ≫= MaintenanceConfig.enabled)))
    (fun _ => aret false).

(** [userData.id || userRef?.id || ""] *)
Definition licenseOwner (userDoc : string * User.data) : string :=
  JS.orStr (User.id userDoc.2) (JS.orStr (Some userDoc.1) "").

Section WithUtils.
Context {utils : LicenseUtils.Utils}.

Definition handleLicenseVerify (now : Z) (req : LicenseVerificationRequest)
  : Async Response :=
  acatch
    (if negb (JS.truthyStr (email req)) || negb (JS.truthyStr (deviceId req)) then
       aret (statusJson 400
               (ErrorBody (Some false) "Email and device ID are required"))
     else
       const usersSnapshot := await Firestore.getUsersByEmail (email req) in
       match usersSnapshot with
       | [] =>
           aret (statusJson 404 (ErrorBody (Some false) "User not found"))
       | userDoc :: _ =>
           let userData := userDoc.2 in
           const licenseData := await Firestore.getLicense (licenseOwner userDoc) in
           match licenseData with
           | None =>
               let alerts : list SecurityAlert := [] in
               const maintenanceMode := await getMaintenanceMode in
               aret (json (VerdictBody
                 {| valid := false;
                    plan := "Gratuit";
                    messageLimit := 10;
                    messageCount := JS.orZero (User.messageCount userData);
                    canSendMessage :=
                      JS.orZero (User.messageCount userData) <? 10;
                    expiresAt := now + 365 * 24 * 60 * 60 * 1000;
                    warnings := [];
                    isBanned := JS.orFalse (User.isBanned userData);
                    isSuspended := JS.orFalse (User.isSuspended userData);
                    alerts := alerts;
                    maintenanceMode := maintenanceMode |}))
           | Some licenseData =>
               let isExpired :=
                 LicenseUtils.isLicenseExpired
                   (LicenseDoc.expiresAt licenseData) now in
               let daysRemaining :=
                 LicenseUtils.getDaysRemaining
                   (LicenseDoc.expiresAt licenseData) now in
               let validation :=
                 LicenseUtils.validateLicense
                   (LicenseDoc.plan licenseData)
                   (JS.orZero (LicenseDoc.messageCount licenseData))
                   (LicenseDoc.expiresAt licenseData)
                   (JS.orFalse (User.isBanned userData))
                   (JS.orFalse (User.isSuspended userData))
                   now in
               const alertsSnapshot := await
                 Firestore.getUnreadWarnings (licenseOwner userDoc) in
               let warnings := map toWarning alertsSnapshot in
               let alerts : list SecurityAlert := [] in
               let alerts :=
                 if isExpired
                    && negb (bool_decide (LicenseDoc.plan licenseData = "Gratuit"))
                 then (alerts ++ [expiredAlert])%list
                 else if (daysRemaining <=? 7) && (daysRemaining >? 0)
                 then (alerts ++ [expiresSoonAlert daysRemaining])%list
                 else alerts in
               let alerts :=
                 if JS.truthyBool (User.isBanned userData)
                 then (alerts ++ [bannedAlert (User.banReason userData)])%list
                 else alerts in
               let alerts :=
                 if JS.truthyBool (User.isSuspended userData)
                 then (alerts ++ [suspendedAlert])%list
                 else alerts in
               const maintenanceMode := await getMaintenanceMode in
               aret (json (VerdictBody
                 {| valid := LicenseUtils.valid validation;
                    plan := LicenseDoc.plan licenseData;
                    messageLimit := JS.orZero (LicenseDoc.messageLimit licenseData);
                    messageCount := JS.orZero (LicenseDoc.messageCount licenseData);
                    canSendMessage :=
                      LicenseUtils.valid validation
                      && JS.lt (LicenseDoc.messageCount licenseData)
                               (LicenseDoc.messageLimit licenseData)
                      && negb isExpired;
                    expiresAt := LicenseDoc.expiresAt licenseData;
                    warnings := warnings;
                    isBanned := JS.orFalse (User.isBanned userData);
                    isSuspended := JS.orFalse (User.isSuspended userData);
                    alerts := alerts;
                    maintenanceMode := maintenanceMode |}))
           end
       end)
    (fun error =>
       aret (statusJson 500
               (ErrorBody (Some false) "License verification failed"))).

(** The alert list [handleLicenseVerify] builds for a user who has a
      license document, in closed form. *)
Definition alertsFor (now : Z) (u : User.data) (lic : LicenseDoc.data)
  : list SecurityAlert :=
  ((if LicenseUtils.isLicenseExpired (LicenseDoc.expiresAt lic) now
       && negb (bool_decide (LicenseDoc.plan lic = "Gratuit"))
    then [expiredAlert]
    else if (LicenseUtils.getDaysRemaining (LicenseDoc.expiresAt lic) now <=? 7)
            && (LicenseUtils.getDaysRemaining (LicenseDoc.expiresAt lic) now >? 0)
    then [expiresSoonAlert
            (LicenseUtils.getDaysRemaining (LicenseDoc.expiresAt lic) now)]
    else [])
   ++ (if JS.truthyBool (User.isBanned u)
       then [bannedAlert (User.banReason u)] else [])
   ++ (if JS.truthyBool (User.isSuspended u) then [suspendedAlert] else []))%list.

End WithUtils.

(** The fields written by [updateDoc] on the license of the user. *)
Definition activatedFields (licenseKeyData : LicenseKey.data)
    (licenseKeyClean : string) (expiresAt now : Z)
    (d : LicenseDoc.data) : LicenseDoc.data :=
  {| LicenseDoc.plan := LicenseKey.plan licenseKeyData;
     LicenseDoc.licenseKey := Some licenseKeyClean;
     LicenseDoc.expiresAt := expiresAt;
     LicenseDoc.isActive := Some true;
     LicenseDoc.messageCount := Some 0;
     LicenseDoc.messageLimit :=
       Some (JS.orZero (LicenseKey.messageLimit licenseKeyData));
     LicenseDoc.lastResetDate := Some now;
     LicenseDoc.userId := LicenseDoc.userId d |}.

(** The document written by [setDoc] when the update is rejected. *)
Definition activatedLicense (licenseKeyData : LicenseKey.data)
    (licenseKeyClean : string) (expiresAt now : Z)
    (userId : string) : LicenseDoc.data :=
  {| LicenseDoc.plan := LicenseKey.plan licenseKeyData;
     LicenseDoc.licenseKey := Some licenseKeyClean;
     LicenseDoc.expiresAt := expiresAt;
     LicenseDoc.isActive := Some true;
     LicenseDoc.messageCount := Some 0;
     LicenseDoc.messageLimit :=
       Some (JS.orZero (LicenseKey.messageLimit licenseKeyData));
     LicenseDoc.lastResetDate := Some now;
     LicenseDoc.userId := Some userId |}.

(** [{ isBanned: false, isSuspended: false }] written on the user. *)
Definition clearedFlags (u : User.data) : User.data :=
  {| User.id := User.id u;
     User.email := User.email u;
     User.messageCount := User.messageCount u;
     User.isBanned := Some false;
     User.banReason := User.banReason u;
     User.isSuspended := Some false |}.

Definition handleLicenseActivate (now : Z) (req : LicenseVerificationRequest)
  : Async Response :=
  acatch
    (if negb (JS.truthyStr (email req))
        || negb (JS.truthyStr (licenseKey req))
        || negb (JS.truthyStr (deviceId req)) then
       aret (statusJson 400
               (ErrorBody None "Email, license key, and device ID are required"))
     else
       const usersSnapshot := await Firestore.getUsersByEmail (email req) in
       match usersSnapshot with
       | [] => aret (statusJson 404 (ErrorBody None "User not found"))
       | userDoc :: _ =>
           let userId := userDoc.1 in
           let licenseKeyClean :=
             JS.toUpperCase (JS.removeDashes (default "" (licenseKey req))) in
           const licenseKeysSnapshot := await
             Firestore.getActiveLicenseKeys licenseKeyClean in
           match licenseKeysSnapshot with
           | [] =>
               aret (statusJson 404
                       (ErrorBody None "Invalid or inactive license key"))
           | licenseKeyDoc :: _ =>
               let licenseKeyData := licenseKeyDoc.2 in
               if JS.truthyStr (LicenseKey.usedBy licenseKeyData)
                  && negb (bool_decide
                             (LicenseKey.usedBy licenseKeyData = Some userId))
               then
                 aret (statusJson 403
                         (ErrorBody None
                            "This license key is already in use by another account"))
               else
                 (* [expiresAt.toISOString()] throws on an invalid date,
                    while the argument of [updateDoc] is built *)
                 match LicenseKey.expiresAt licenseKeyData with
                 | None => athrow RangeError
                 | Some expiresAt =>
                     await
                       acatch
                         (Firestore.updateLicense userId
                            (activatedFields licenseKeyData licenseKeyClean
                               expiresAt now))
                         (fun _ =>
                            Firestore.setLicense userId
                              (activatedLicense licenseKeyData licenseKeyClean
                                 expiresAt now userId)) in
                     await Firestore.updateUser userId clearedFlags in
                     const maintenanceMode := await getMaintenanceMode in
                     aret (json (VerdictBody
                       {| valid := true;
                          plan := LicenseKey.plan licenseKeyData;
                          messageLimit :=
                            JS.orZero (LicenseKey.messageLimit licenseKeyData);
                          messageCount := 0;
                          canSendMessage := true;
                          expiresAt := expiresAt;
                          warnings := [];
                          isBanned := false;
                          isSuspended := false;
                          alerts := [];
                          maintenanceMode := maintenanceMode |}))
                 end
           end
       end)
    (fun error =>
       aret (statusJson 500 (ErrorBody None "License activation failed"))).

(** [licenseKey.replace(/-/g, "").toUpperCase()] of the request. *)
Definition cleanKeyOf (req : LicenseVerificationRequest) : string :=
  JS.toUpperCase (JS.removeDashes (default "" (licenseKey req))).

(** The store after a successful activation. *)
Definition activatedStore (now : Z) (req : LicenseVerificationRequest)
    (userDoc : string * User.data) (keyDoc : string * LicenseKey.data)
    (expiresAt : Z) (st : Store) : Store :=
  Firestore.withUsers (insert userDoc.1 (clearedFlags userDoc.2))
    (Firestore.withLicenses
       (insert userDoc.1
          match licenses st !! userDoc.1 with
          | Some d => activatedFields keyDoc.2 (cleanKeyOf req) expiresAt now d
          | None => activatedLicense keyDoc.2 (cleanKeyOf req) expiresAt now userDoc.1
          end) st).

End LicenseRoutes.

(** ** server/routes/license.ts: the message counter *)

Module IncrementRoute.

Import Api.

(** The body given to [res.json]: [{ success, messageCount, messageLimit }]
    or [{ error }]. *)
Inductive CounterBody : Type :=
| Counted (success : bool) (messageCount : Z) (messageLimit : option Z)
| CounterError (error : string).

Record CounterResponse : Type := { counterStatus : Z; counterBody : CounterBody }.

(** [{ messageCount: newCount }] written on the license. *)
Definition countFields (newCount : Z) (d : LicenseDoc.data) : LicenseDoc.data :=
  {| LicenseDoc.plan := LicenseDoc.plan d;
     LicenseDoc.licenseKey := LicenseDoc.licenseKey d;
     LicenseDoc.expiresAt := LicenseDoc.expiresAt d;
     LicenseDoc.isActive := LicenseDoc.isActive d;
     LicenseDoc.messageCount := Some newCount;
     LicenseDoc.messageLimit := LicenseDoc.messageLimit d;
     LicenseDoc.lastResetDate := LicenseDoc.lastResetDate d;
     LicenseDoc.userId := LicenseDoc.userId d |}.

(** Only [email] of the request body is read. *)
Definition handleIncrementMessageCount (req : LicenseVerificationRequest)
  : Async CounterResponse :=
  acatch
    (if negb (JS.truthyStr (email req)) then
       aret {| counterStatus := 400;
               counterBody := CounterError "Email is required" |}
     else
       const usersSnapshot := await Firestore.getUsersByEmail (email req) in
       match usersSnapshot with
       | [] =>
           aret {| counterStatus := 404;
                   counterBody := CounterError "User not found" |}
       | userDoc :: _ =>
           let userId := userDoc.1 in
           const licenseData := await Firestore.getLicense userId in
           match licenseData with
           | None =>
               aret {| counterStatus := 404;
                       counterBody := CounterError "License not found" |}
           | Some licenseData =>
               let newCount :=
                 JS.orZero (LicenseDoc.messageCount licenseData) + 1 in
               await Firestore.updateLicense userId (countFields newCount) in
               aret {| counterStatus := 200;
                       counterBody :=
                         Counted true newCount
                           (LicenseDoc.messageLimit licenseData) |}
           end
       end)
    (fun error =>
       aret {| counterStatus := 500;
               counterBody := CounterError "Failed to increment message count" |}).

(** [n] requests, one after the other; the store after the last. *)
Fixpoint incrementTimes (n : nat) (req : LicenseVerificationRequest)
    (st : Store) : Store :=
  match n with
  | O => st
  | S n' => incrementTimes n' req (handleIncrementMessageCount req st).2
  end.

End IncrementRoute.

(** ** server/lib/adminAuth.ts: granting and revoking the admin role *)

Module RoleManager.

Import AdminAuth.

(** The identity provider as a store of user records, and the lines
    written by [console.error]. *)
Record Provider : Type :=
  { records : gmap string UserRecord;
    console : list (string * Error) }.

Definition Call (A : Type) : Type := Provider -> outcome A * Provider.

(** [getAuth().setCustomUserClaims(uid, claims)]: replaces the custom
    claims of an existing user, and rejects when there is no such user. *)
Definition setCustomUserClaims (uid : string) (claims : Claims) : Call unit :=
  fun p =>
    match records p !! uid with
    | Some _ =>
        (Returned tt,
         {| records := <[uid := {| userCustomClaims := Some claims |}]> (records p);
            console := console p |})
    | None => (Thrown (ProviderError "auth/user-not-found"), p)
    end.

(** [console.error(label, err)] *)
Definition consoleError (label : string) (err : Error) : Call unit :=
  fun p =>
    (Returned tt,
     {| records := records p; console := (console p ++ [(label, err)])%list |}).

(** [try { m } catch (err) { console.error(label, err); throw err; }] *)
Definition logAndRethrow (label : string) (m : Call unit) : Call unit :=
  fun p =>
    match m p with
    | (Returned a, p') => (Returned a, p')
    | (Thrown err, p') =>
        match consoleError label err p' with
        | (_, p'') => (Thrown err, p'')
        end
    end.

Definition setAdminRole (uid : string) : Call unit :=
  logAndRethrow "Error setting admin role:"
    (setCustomUserClaims uid {| admin := Some (JS.VBool true) |}).

Definition removeAdminRole (uid : string) : Call unit :=
  logAndRethrow "Error removing admin role:"
    (setCustomUserClaims uid {| admin := Some (JS.VBool false) |}).

(** [getAuth().getUser(uid)] on the same records. *)
Definition getUserOf (p : Provider) (uid : string) : outcome UserRecord :=
  match records p !! uid with
  | Some r => Returned r
  | None => Thrown (ProviderError "auth/user-not-found")
  end.

(** The provider as [verifyAdminToken] and [isAdminUser] reach it, with
    any token verification. *)
Definition authOf (verify : string -> outcome DecodedIdToken) (p : Provider)
  : Auth :=
  {| verifyIdToken := verify; getUser := getUserOf p |}.

End RoleManager.

(** ** server/lib/firebase-admin.ts: the service account *)

Module FirebaseAdmin.

(** [s.replace(/\\n/g, "\n")]: every backslash followed by [n] becomes a
    line feed. *)
Fixpoint unescapeNewlines (s : string) : string :=
  match s with
  | EmptyString => EmptyString
  | String c s' =>
      match s' with
      | String c' s'' =>
          if Ascii.eqb c "\"%char && Ascii.eqb c' "n"%char
          then String "010"%char (unescapeNewlines s'')
          else String c (unescapeNewlines s')
      | EmptyString => String c EmptyString
      end
  end.

(** [process.env]: the variables that are set. *)
Definition Env : Type := gmap string string.

(** The fields of [serviceAccount] that are computed. *)
Record ServiceAccount : Type :=
  { accountType : string;
    private_key : option string }.

Definition serviceAccount (env : gmap string string) : ServiceAccount :=
  {| accountType := JS.orStr (env !! "FIREBASE_TYPE") "service_account";
     private_key :=
       if JS.truthyStr (env !! "FIREBASE_PRIVATE_KEY")
       then Some (unescapeNewlines (default "" (env !! "FIREBASE_PRIVATE_KEY")))
       else None |}.

(** A backslash followed by [n] somewhere in the string. *)
Fixpoint hasEscapedNewline (s : string) : bool :=
  match s with
  | EmptyString => false
  | String c s' =>
      match s' with
      | String c' _ =>
          (Ascii.eqb c "\"%char && Ascii.eqb c' "n"%char) || hasEscapedNewline s'
      | EmptyString => false
      end
  end.

End FirebaseAdmin.

(** ** Concrete stores and requests *)

Module Examples.

Import Api LicenseRoutes.

Definition day : Z := LicenseUtils.msPerDay.

Definition now0 : Z := 1000 * day.

Definition noLimit : string -> option Z := fun _ => None.

Definition utils0 : LicenseUtils.Utils := LicenseUtils.specUtils noLimit.

Definition mail : string := "alice@example.com".

Definition request (mail : string) : LicenseVerificationRequest :=
  {| email := Some mail; licenseKey := None; deviceId := Some "device-1" |}.

Definition alice (banned : option bool) (reason : option string) : User.data :=
  {| User.id := None;
     User.email := Some "alice@example.com";
     User.messageCount := Some 3;
     User.isBanned := banned;
     User.banReason := reason;
     User.isSuspended := None |}.

Definition license (plan : string) (count limit : option Z) (expiresAt : Z)
  : LicenseDoc.data :=
  {| LicenseDoc.plan := plan;
     LicenseDoc.licenseKey := None;
     LicenseDoc.expiresAt := expiresAt;
     LicenseDoc.isActive := Some true;
     LicenseDoc.messageCount := count;
     LicenseDoc.messageLimit := limit;
     LicenseDoc.lastResetDate := None;
     LicenseDoc.userId := None |}.

(** One user, [u1], with the given data and license. *)
Definition storeOf (u : User.data) (l : option LicenseDoc.data) : Store :=
  {| users := {[ "u1" := u ]};
     licenses := match l with Some d => {[ "u1" := d ]} | None => ∅ end;
     userWarnings := ∅;
     licenseKeys := ∅;
     maintenance := None |}.

(** The example of the specification: plan "Pro", 5 of 100 messages,
    three days left, not banned. *)
Definition proStore : Store :=
  storeOf (alice None None)
          (Some (license "Pro" (Some 5) (Some 100) (now0 + 3 * day))).

(** A banned user who has no license document. *)
Definition bannedNoLicense : Store :=
  storeOf (alice (Some true) (Some "spam")) None.

(** A banned user with a running license. *)
Definition bannedLicensed : Store :=
  storeOf (alice (Some true) None)
          (Some (license "Pro" (Some 5) (Some 100) (now0 + 30 * day))).

(** A paid license that ran out yesterday. *)
Definition expiredPro : Store :=
  storeOf (alice None None)
          (Some (license "Pro" (Some 5) (Some 100) (now0 - day))).

(** A paid license with exactly seven days left. *)
Definition sevenDaysLeft : Store :=
  storeOf (alice None None)
          (Some (license "Pro" (Some 5) (Some 100) (now0 + 7 * day))).

(** A user in good standing who has no license document. *)
Definition unlicensed : Store := storeOf (alice None None) None.

Definition aliceDoc (banned : option bool) (reason : option string)
  : string * User.data := ("u1", alice banned reason).

(** The key ABCD1234, redeemable, with the given owner. *)
Definition proKey (usedBy : option string) : LicenseKey.data :=
  {| LicenseKey.key := "ABCD1234";
     LicenseKey.plan := "Pro";
     LicenseKey.messageLimit := Some 100;
     LicenseKey.expiresAt := Some (now0 + 30 * day);
     LicenseKey.isActive := Some true;
     LicenseKey.usedBy := usedBy |}.

Definition keyStore (usedBy : option string) : Store :=
  {| users := {[ "u1" := alice None None ]};
     licenses := ∅;
     userWarnings := ∅;
     licenseKeys := {[ "k1" := proKey usedBy ]};
     maintenance := None |}.

Definition activation : LicenseVerificationRequest :=
  {| email := Some "alice@example.com";
     licenseKey := Some "abcd-1234";
     deviceId := Some "device-1" |}.

(** An identity provider that rejects every call. *)
Definition rejectingAuth : AdminAuth.Auth :=
  {| AdminAuth.verifyIdToken := fun _ => Thrown (ProviderError "auth/argument-error");
     AdminAuth.getUser := fun _ => Thrown (ProviderError "auth/user-not-found") |}.

End Examples.

(** ** Further stores, requests and providers *)

Module Scenarios.

Import Api LicenseRoutes Examples.

(** A banned and suspended user with a running license. *)
Definition bannedSuspended : User.data :=
  {| User.id := None;
     User.email := Some mail;
     User.messageCount := Some 3;
     User.isBanned := Some true;
     User.banReason := Some "spam";
     User.isSuspended := Some true |}.

Definition proLicense : LicenseDoc.data :=
  license "Pro" (Some 5) (Some 100) (now0 + 30 * day).

Definition bannedSuspendedStore : Store :=
  storeOf bannedSuspended (Some proLicense).

(** Three warnings: unread, read, and one without [isRead]. *)
Definition warningDocs : gmap string WarningDoc.data :=
  {[ "w1" := {| WarningDoc.id := None; WarningDoc.isRead := Some false;
                WarningDoc.message := "first" |};
     "w2" := {| WarningDoc.id := None; WarningDoc.isRead := Some true;
                WarningDoc.message := "second" |};
     "w3" := {| WarningDoc.id := None; WarningDoc.isRead := None;
                WarningDoc.message := "third" |} ]}.

Definition warnedStore : Store :=
  {| users := {[ "u1" := alice None None ]};
     licenses := {[ "u1" := proLicense ]};
     userWarnings := {[ "u1" := warningDocs ]};
     licenseKeys := ∅;
     maintenance := None |}.

(** A store whose only key has the given activity and expiry. *)
Definition keyStoreWith (isActive : option bool) (expiresAt : option Z) : Store :=
  {| users := {[ "u1" := alice None None ]};
     licenses := ∅;
     userWarnings := ∅;
     licenseKeys :=
       {[ "k1" := {| LicenseKey.key := "ABCD1234";
                     LicenseKey.plan := "Pro";
                     LicenseKey.messageLimit := Some 100;
                     LicenseKey.expiresAt := expiresAt;
                     LicenseKey.isActive := isActive;
                     LicenseKey.usedBy := None |} ]};
     maintenance := None |}.

(** The same request as [activation], the key typed in upper case
    without the dash. *)
Definition activationPlain : LicenseVerificationRequest :=
  {| email := Some mail;
     licenseKey := Some "ABCD1234";
     deviceId := Some "device-2" |}.

(** The answer to [activation] on [keyStore None], and the store left. *)
Definition activatedVerdict : LicenseVerificationResponse :=
  {| valid := true; plan := "Pro"; messageLimit := 100; messageCount := 0;
     canSendMessage := true; expiresAt := now0 + 30 * day; warnings := [];
     isBanned := false; isSuspended := false; alerts := [];
     maintenanceMode := false |}.

Definition activatedKeyStore : Store :=
  activatedStore now0 activation (aliceDoc None None) ("k1", proKey None)
    (now0 + 30 * day) (keyStore None).

(** A user document that carries an [id] field other than its
    document id. *)
Definition legacyAlice : User.data :=
  {| User.id := Some "legacy-7";
     User.email := Some mail;
     User.messageCount := Some 3;
     User.isBanned := None;
     User.banReason := None;
     User.isSuspended := None |}.

Definition legacyKeyStore : Store :=
  {| users := {[ "u1" := legacyAlice ]};
     licenses := ∅;
     userWarnings := ∅;
     licenseKeys := {[ "k1" := proKey None ]};
     maintenance := None |}.

Definition legacyActivatedStore : Store :=
  activatedStore now0 activation ("u1", legacyAlice) ("k1", proKey None)
    (now0 + 30 * day) legacyKeyStore.

(** A license at its limit. *)
Definition fullLicense : LicenseDoc.data :=
  license "Pro" (Some 100) (Some 100) (now0 + 30 * day).

Definition fullStore : Store := storeOf (alice None None) (Some fullLicense).

(** A license document that stores a limit and no count. *)
Definition uncountedLicense : LicenseDoc.data :=
  license "Pro" None (Some 100) (now0 + 30 * day).

Definition uncountedStore : Store :=
  storeOf (alice None None) (Some uncountedLicense).

(** An identity provider with one user, who has no custom claims. *)
Definition oneUser : RoleManager.Provider :=
  {| RoleManager.records := {[ "u1" := {| AdminAuth.userCustomClaims := None |} ]};
     RoleManager.console := [] |}.

Definition rejectTokens : string -> outcome AdminAuth.DecodedIdToken :=
  fun _ => Thrown (ProviderError "auth/argument-error").

End Scenarios.

(** * Properties *)

Import Api LicenseRoutes.

(** ** Running the store calls *)

Lemma head_cons_inv {A} (l : list A) (x : A) :
  head l = Some x -> exists rest, l = x :: rest.
Proof. destruct l as [|y rest]; simpl; intros H; [discriminate|]. exists rest. congruence. Qed.

Lemma getMaintenanceMode_run (st : Store) :
  getMaintenanceMode st
  = (Returned (JS.orFalse (maintenance st ≫= MaintenanceConfig.enabled)), st).
Proof. reflexivity. Qed.

Lemma truthyStr_nonempty (v : string) : v <> "" -> JS.truthyStr (Some v) = true.
Proof. destruct v; [congruence | reflexivity]. Qed.

Ltac unfold_calls :=
  unfold acatch, abind, aret, athrow,
    Firestore.getUsersByEmail, Firestore.getLicense,
    Firestore.getUnreadWarnings, Firestore.getActiveLicenseKeys,
    Firestore.getMaintenanceConfig.

Section VerifyProperties.

Context {utils : LicenseUtils.Utils}.

(** The verify handler always answers, and leaves the store as it
    found it. *)
Lemma handleLicenseVerify_reads_only now req st :
  exists r, handleLicenseVerify now req st = (Returned r, st).
Proof.
  unfold handleLicenseVerify. unfold_calls.
  destruct (negb (JS.truthyStr (email req)) || negb (JS.truthyStr (deviceId req)));
    [eexists; reflexivity|].
  destruct (Firestore.usersByEmail st (email req)) as [|userDoc rest];
    [eexists; reflexivity|].
  destruct (licenses st !! licenseOwner userDoc) as [lic|];
    rewrite getMaintenanceMode_run; eexists; reflexivity.
Qed.

(** The answer for a user who has no license document. *)
Lemma handleLicenseVerify_no_license now req st userDoc :
  JS.truthyStr (email req) = true ->
  JS.truthyStr (deviceId req) = true ->
  head (Firestore.usersByEmail st (email req)) = Some userDoc ->
  licenses st !! licenseOwner userDoc = None ->
  handleLicenseVerify now req st
  = (Returned (json (VerdictBody
       {| valid := false;
          plan := "Gratuit";
          messageLimit := 10;
          messageCount := JS.orZero (User.messageCount userDoc.2);
          canSendMessage := JS.orZero (User.messageCount userDoc.2) <? 10;
          expiresAt := now + 365 * 24 * 60 * 60 * 1000;
          warnings := [];
          isBanned := JS.orFalse (User.isBanned userDoc.2);
          isSuspended := JS.orFalse (User.isSuspended userDoc.2);
          alerts := [];
          maintenanceMode :=
            JS.orFalse (maintenance st ≫= MaintenanceConfig.enabled) |})), st).
Proof.
  intros He Hd Hu Hl. apply head_cons_inv in Hu as [rest Hu].
  unfold handleLicenseVerify. unfold_calls.
  rewrite He, Hd. cbn [negb orb]. rewrite Hu, Hl, getMaintenanceMode_run. reflexivity.
Qed.

(** The answer for a user who has a license document. *)
Lemma handleLicenseVerify_licensed now req st userDoc lic :
  JS.truthyStr (email req) = true ->
  JS.truthyStr (deviceId req) = true ->
  head (Firestore.usersByEmail st (email req)) = Some userDoc ->
  licenses st !! licenseOwner userDoc = Some lic ->
  handleLicenseVerify now req st
  = (Returned (json (VerdictBody
       {| valid :=
            LicenseUtils.valid
              (LicenseUtils.validateLicense (LicenseDoc.plan lic)
                 (JS.orZero (LicenseDoc.messageCount lic))
                 (LicenseDoc.expiresAt lic)
                 (JS.orFalse (User.isBanned userDoc.2))
                 (JS.orFalse (User.isSuspended userDoc.2)) now);
          plan := LicenseDoc.plan lic;
          messageLimit := JS.orZero (LicenseDoc.messageLimit lic);
          messageCount := JS.orZero (LicenseDoc.messageCount lic);
          canSendMessage :=
            LicenseUtils.valid
              (LicenseUtils.validateLicense (LicenseDoc.plan lic)
                 (JS.orZero (LicenseDoc.messageCount lic))
                 (LicenseDoc.expiresAt lic)
                 (JS.orFalse (User.isBanned userDoc.2))
                 (JS.orFalse (User.isSuspended userDoc.2)) now)
            && JS.lt (LicenseDoc.messageCount lic) (LicenseDoc.messageLimit lic)
            && negb (LicenseUtils.isLicenseExpired (LicenseDoc.expiresAt lic) now);
          expiresAt := LicenseDoc.expiresAt lic;
          warnings :=
            map toWarning (Firestore.unreadWarnings st (licenseOwner userDoc));
          isBanned := JS.orFalse (User.isBanned userDoc.2);
          isSuspended := JS.orFalse (User.isSuspended userDoc.2);
          alerts := alertsFor now userDoc.2 lic;
          maintenanceMode :=
            JS.orFalse (maintenance st ≫= MaintenanceConfig.enabled) |})), st).
Proof.
  intros He Hd Hu Hl. apply head_cons_inv in Hu as [rest Hu].
  unfold handleLicenseVerify. unfold_calls.
  rewrite He, Hd. cbn [negb orb]. rewrite Hu, Hl, getMaintenanceMode_run.
  do 4 f_equal. unfold alertsFor.
  repeat match goal with |- context [if ?b then _ else _] => destruct b end;
    reflexivity.
Qed.

(** Membership in the alert list, by origin. *)
Lemma bannedAlert_in_alertsFor now u lic :
  User.isBanned u = Some true ->
  bannedAlert (User.banReason u) ∈ alertsFor now u lic.
Proof.
  intros Hb. unfold alertsFor. rewrite Hb. cbn [JS.truthyBool].
  rewrite !elem_of_app. right; left. apply list_elem_of_singleton. reflexivity.
Qed.

Lemma banner_in_alertsFor now u lic a :
  a ∈ alertsFor now u lic -> type a = banner ->
  a = expiresSoonAlert
        (LicenseUtils.getDaysRemaining (LicenseDoc.expiresAt lic) now)
  /\ 0 < LicenseUtils.getDaysRemaining (LicenseDoc.expiresAt lic) now <= 7
  /\ LicenseUtils.isLicenseExpired (LicenseDoc.expiresAt lic) now
      && negb (bool_decide (LicenseDoc.plan lic = "Gratuit")) = false.
Proof.
  unfold alertsFor. intros Hin Hty.
  rewrite !elem_of_app in Hin.
  destruct Hin as [Hin | [Hin | Hin]].
  - destruct (LicenseUtils.isLicenseExpired _ _ && _) eqn:Hexp.
    + apply list_elem_of_singleton in Hin. subst a. discriminate.
    + destruct (_ && _) eqn:Hd in Hin.
      * apply list_elem_of_singleton in Hin. split; [exact Hin|].
        apply andb_prop in Hd as [H1 H2]. split; [lia | reflexivity].
      * inversion Hin.
  - destruct (JS.truthyBool _); [|inversion Hin].
    apply list_elem_of_singleton in Hin. subst a. discriminate.
  - destruct (JS.truthyBool _); [|inversion Hin].
    apply list_elem_of_singleton in Hin. subst a. discriminate.
Qed.

(** ** Claims on [handleLicenseVerify] *)

(** C1, as amended.  A user found by the request who is banned and has
    a license document gets a verdict that reports the ban and lists
    the banned alert: a critical modal, not dismissible, whose message
    ends in the ban reason, or in the default text when the reason is
    absent or empty; this holds whatever the license contains.  The
    same user without a license document gets a verdict that reports
    the ban and lists no alert. *)
Theorem C1_banned_alert_needs_license now req st userDoc :
  JS.truthyStr (email req) = true ->
  JS.truthyStr (deviceId req) = true ->
  head (Firestore.usersByEmail st (email req)) = Some userDoc ->
  User.isBanned userDoc.2 = Some true ->
  exists v,
    handleLicenseVerify now req st = (Returned (json (VerdictBody v)), st)
    /\ isBanned v = true
    /\ (is_Some (licenses st !! licenseOwner userDoc) ->
        exists a, a ∈ alerts v
          /\ type a = modal /\ severity a = critical /\ dismissible a = false
          /\ message a = "Votre compte a été banni. Raison: "
                         +:+ JS.orStr (User.banReason userDoc.2) "Non spécifiée")
    /\ (licenses st !! licenseOwner userDoc = None -> alerts v = []).
Proof.
  intros He Hd Hu Hb.
  destruct (licenses st !! licenseOwner userDoc) as [lic|] eqn:Hl.
  - rewrite (handleLicenseVerify_licensed now req st userDoc lic He Hd Hu Hl).
    eexists. split; [reflexivity|]. cbn [isBanned alerts].
    split; [rewrite Hb; reflexivity|]. split; [|discriminate].
    intros _. exists (bannedAlert (User.banReason userDoc.2)).
    split; [apply bannedAlert_in_alertsFor; exact Hb|]. repeat split.
  - rewrite (handleLicenseVerify_no_license now req st userDoc He Hd Hu Hl).
    eexists. split; [reflexivity|]. cbn [isBanned alerts].
    split; [rewrite Hb; reflexivity|]. split; [|reflexivity].
    intros [x Hx]. discriminate.
Qed.

(** C4.  A user found by the request who has no license document gets
    the free-tier verdict: plan "Gratuit", limit 10, the count of the
    user document (0 when it has none), [canSendMessage] saying whether
    that count is below 10, an expiry 365 days after now, no warnings,
    no alerts, and the ban and suspension flags of the user. *)
Theorem C4_free_tier_verdict_without_license now req st userDoc :
  JS.truthyStr (email req) = true ->
  JS.truthyStr (deviceId req) = true ->
  head (Firestore.usersByEmail st (email req)) = Some userDoc ->
  licenses st !! licenseOwner userDoc = None ->
  exists v,
    handleLicenseVerify now req st = (Returned (json (VerdictBody v)), st)
    /\ plan v = "Gratuit"
    /\ messageLimit v = 10
    /\ messageCount v = JS.orZero (User.messageCount userDoc.2)
    /\ canSendMessage v = (messageCount v <? 10)
    /\ expiresAt v = now + 365 * LicenseUtils.msPerDay
    /\ warnings v = []
    /\ alerts v = []
    /\ isBanned v = JS.orFalse (User.isBanned userDoc.2)
    /\ isSuspended v = JS.orFalse (User.isSuspended userDoc.2).
Proof.
  intros He Hd Hu Hl.
  rewrite (handleLicenseVerify_no_license now req st userDoc He Hd Hu Hl).
  eexists. split; [reflexivity|]. cbn -[Z.mul Z.add Z.ltb].
  repeat split; unfold LicenseUtils.msPerDay; lia.
Qed.

(** The [canSendMessage] of a verdict for a user who has a license
    document, as line 140 to 143 compute it: the comparison is the one of
    JavaScript on the stored fields, false when one is absent; when both
    are stored it is the comparison of the [messageCount] and
    [messageLimit] of the verdict. *)
Lemma canSendMessage_raw_comparison now req st userDoc lic :
  JS.truthyStr (email req) = true ->
  JS.truthyStr (deviceId req) = true ->
  head (Firestore.usersByEmail st (email req)) = Some userDoc ->
  licenses st !! licenseOwner userDoc = Some lic ->
  exists v,
    handleLicenseVerify now req st = (Returned (json (VerdictBody v)), st)
    /\ canSendMessage v
       = valid v
         && JS.lt (LicenseDoc.messageCount lic) (LicenseDoc.messageLimit lic)
         && negb (LicenseUtils.isLicenseExpired (LicenseDoc.expiresAt lic) now)
    /\ (is_Some (LicenseDoc.messageCount lic) ->
        is_Some (LicenseDoc.messageLimit lic) ->
        canSendMessage v
        = valid v
          && (messageCount v <? messageLimit v)
          && negb (LicenseUtils.isLicenseExpired (LicenseDoc.expiresAt lic) now)).
Proof.
  intros He Hd Hu Hl.
  rewrite (handleLicenseVerify_licensed now req st userDoc lic He Hd Hu Hl).
  eexists. split; [reflexivity|]. cbn [canSendMessage valid messageCount messageLimit].
  split; [reflexivity|].
  intros [c Hc] [l Hlim]. rewrite Hc, Hlim. reflexivity.
Qed.

(** C5.  The code departs from the claim on a license document that
    stores a positive limit and no count.  The verdict then reports
    [messageCount = 0] (the count defaulted with [|| 0]) and the stored
    limit, but its [canSendMessage] is false, because the comparison of
    line 142 is made on the undefaulted field.  So when the license is
    valid and not expired, [canSendMessage] is not
    [valid AND messageCount < messageLimit AND NOT expired]. *)
Theorem C5_missing_count_blocks_sending now req st userDoc lic limit :
  JS.truthyStr (email req) = true ->
  JS.truthyStr (deviceId req) = true ->
  head (Firestore.usersByEmail st (email req)) = Some userDoc ->
  licenses st !! licenseOwner userDoc = Some lic ->
  LicenseDoc.messageCount lic = None ->
  LicenseDoc.messageLimit lic = Some limit ->
  0 < limit ->
  exists v,
    handleLicenseVerify now req st = (Returned (json (VerdictBody v)), st)
    /\ messageCount v = 0
    /\ messageLimit v = limit
    /\ canSendMessage v = false
    /\ (valid v = true ->
        LicenseUtils.isLicenseExpired (LicenseDoc.expiresAt lic) now = false ->
        valid v
        && (messageCount v <? messageLimit v)
        && negb (LicenseUtils.isLicenseExpired (LicenseDoc.expiresAt lic) now)
        = true
        /\ canSendMessage v
           <> (valid v
               && (messageCount v <? messageLimit v)
               && negb (LicenseUtils.isLicenseExpired
                          (LicenseDoc.expiresAt lic) now))).
Proof.
  intros He Hd Hu Hl Hcount Hlimit Hpos.
  rewrite (handleLicenseVerify_licensed now req st userDoc lic He Hd Hu Hl).
  eexists. split; [reflexivity|].
  cbn [canSendMessage valid messageCount messageLimit].
  rewrite Hcount, Hlimit. cbn [JS.orZero JS.lt].
  split; [reflexivity|]. split; [reflexivity|].
  split; [rewrite andb_false_r; reflexivity|].
  intros Hvalid Hexp. rewrite Hvalid, Hexp, andb_false_r.
  replace (0 <? limit) with true by lia.
  split; [reflexivity | discriminate].
Qed.

(** C7.  In the verdict for a user who has a license document: when the
    license is not expired and between 1 and 7 days remain (7 included),
    the alerts contain the dismissible warning banner whose message
    carries the number of days; when 0 or fewer days remain, the alerts
    contain no banner. *)
Theorem C7_expiry_banner_boundaries now req st userDoc lic :
  JS.truthyStr (email req) = true ->
  JS.truthyStr (deviceId req) = true ->
  head (Firestore.usersByEmail st (email req)) = Some userDoc ->
  licenses st !! licenseOwner userDoc = Some lic ->
  let daysRemaining :=
    LicenseUtils.getDaysRemaining (LicenseDoc.expiresAt lic) now in
  exists v,
    handleLicenseVerify now req st = (Returned (json (VerdictBody v)), st)
    /\ (LicenseUtils.isLicenseExpired (LicenseDoc.expiresAt lic) now = false ->
        0 < daysRemaining <= 7 ->
        exists a, a ∈ alerts v
          /\ type a = banner /\ severity a = warning /\ dismissible a = true
          /\ message a = "Votre licence expire dans "
                         +:+ JS.numToString daysRemaining +:+ " jour(s).")
    /\ (daysRemaining <= 0 -> forall a, a ∈ alerts v -> type a <> banner).
Proof.
  intros He Hd Hu Hl days.
  rewrite (handleLicenseVerify_licensed now req st userDoc lic He Hd Hu Hl).
  eexists. split; [reflexivity|]. cbn [alerts]. split.
  - intros Hexp Hrange. exists (expiresSoonAlert days).
    split; [|repeat split].
    unfold alertsFor. rewrite Hexp. cbn [andb]. fold days.
    replace (days <=? 7) with true by lia.
    replace (days >? 0) with true by lia.
    cbn [andb]. apply elem_of_app. left. apply list_elem_of_singleton. reflexivity.
  - intros Hle a Hin Hty.
    destruct (banner_in_alertsFor now userDoc.2 lic a Hin Hty) as (_ & Hpos & _).
    fold days in Hpos. lia.
Qed.

(** C9.  The verify handler always answers and leaves the store as it
    found it, so a second call at the same instant, made on the store
    the first call left, gives the same answer. *)
Theorem C9_verify_twice_same_verdict now req st :
  exists r,
    handleLicenseVerify now req st = (Returned r, st)
    /\ handleLicenseVerify now req (handleLicenseVerify now req st).2
       = (Returned r, st).
Proof.
  destruct (handleLicenseVerify_reads_only now req st) as [r Hr].
  exists r. rewrite Hr. split; [reflexivity | exact Hr].
Qed.

(** C10.  The verdict for a user found by the request who has no
    license document has [valid = false], whatever the user document
    says; when the count of the user is below 10 the same verdict has
    [canSendMessage = true]. *)
Theorem C10_free_tier_verdict_never_valid now req st userDoc :
  JS.truthyStr (email req) = true ->
  JS.truthyStr (deviceId req) = true ->
  head (Firestore.usersByEmail st (email req)) = Some userDoc ->
  licenses st !! licenseOwner userDoc = None ->
  exists v,
    handleLicenseVerify now req st = (Returned (json (VerdictBody v)), st)
    /\ valid v = false
    /\ (JS.orZero (User.messageCount userDoc.2) < 10 -> canSendMessage v = true).
Proof.
  intros He Hd Hu Hl.
  rewrite (handleLicenseVerify_no_license now req st userDoc He Hd Hu Hl).
  eexists. split; [reflexivity|]. cbn [valid canSendMessage].
  split; [reflexivity|]. intros Hlt. apply Z.ltb_lt. exact Hlt.
Qed.

End VerifyProperties.

(** C3.  With the license utilities as the specification describes
    them: a user found by the request whose license document has a plan
    other than "Gratuit" and an expiry before now gets a verdict with
    [valid = false] whose alerts contain the license-expired alert, a
    critical modal that is not dismissible. *)
Theorem C3_expired_paid_license_invalid planLimit now req st userDoc lic :
  JS.truthyStr (email req) = true ->
  JS.truthyStr (deviceId req) = true ->
  head (Firestore.usersByEmail st (email req)) = Some userDoc ->
  licenses st !! licenseOwner userDoc = Some lic ->
  LicenseDoc.plan lic <> "Gratuit" ->
  now > LicenseDoc.expiresAt lic ->
  exists v,
    handleLicenseVerify (utils := LicenseUtils.specUtils planLimit) now req st
    = (Returned (json (VerdictBody v)), st)
    /\ valid v = false
    /\ exists a, a ∈ alerts v
         /\ type a = modal /\ severity a = critical /\ dismissible a = false
         /\ title a = "Licence Expirée"
         /\ message a
            = "Votre licence a expiré. Veuillez renouveler votre abonnement.".
Proof.
  intros He Hd Hu Hl Hplan Hexp.
  rewrite (handleLicenseVerify_licensed now req st userDoc lic He Hd Hu Hl).
  eexists. split; [reflexivity|]. cbn [valid alerts].
  assert (Hpaid : LicenseUtils.specIsLicenseExpired (LicenseDoc.expiresAt lic) now
                  && negb (bool_decide (LicenseDoc.plan lic = "Gratuit")) = true).
  { unfold LicenseUtils.specIsLicenseExpired.
    rewrite bool_decide_eq_false_2 by exact Hplan.
    apply andb_true_intro. split; [lia | reflexivity]. }
  split.
  - cbn [LicenseUtils.validateLicense LicenseUtils.specUtils].
    unfold LicenseUtils.specValidateLicense. rewrite Hpaid.
    destruct (JS.orFalse _); [reflexivity|].
    destruct (JS.orFalse _); reflexivity.
  - exists expiredAlert. split; [|repeat split].
    unfold alertsFor.
    cbn [LicenseUtils.isLicenseExpired LicenseUtils.specUtils].
    rewrite Hpaid. apply elem_of_app. left.
    apply list_elem_of_singleton. reflexivity.
Qed.

(** ** Claims on [handleLicenseActivate] *)

(** A document listed by a query is a document of the collection. *)
Lemma head_filter_lookup {A} (P : string * A -> Prop)
    `{forall d, Decision (P d)} (m : gmap string A) (d : string * A) :
  head (filter P (map_to_list m)) = Some d -> m !! d.1 = Some d.2 /\ P d.
Proof.
  intros Hd. apply head_Some_elem_of, list_elem_of_filter in Hd as [HP Hin].
  split; [|exact HP]. apply elem_of_map_to_list'. exact Hin.
Qed.

(** Every run of the activation handler is one of its six exits. *)
Lemma handleLicenseActivate_cases now req st :
  (exists r, handleLicenseActivate now req st = (Returned r, st)
             /\ status r <> 200)
  \/ (exists userDoc keyDoc expiresAt,
        head (Firestore.usersByEmail st (email req)) = Some userDoc
        /\ head (Firestore.activeLicenseKeys st (cleanKeyOf req)) = Some keyDoc
        /\ (JS.truthyStr (LicenseKey.usedBy keyDoc.2) = false
            \/ LicenseKey.usedBy keyDoc.2 = Some userDoc.1)
        /\ LicenseKey.expiresAt keyDoc.2 = Some expiresAt
        /\ exists v,
             handleLicenseActivate now req st
             = (Returned (json (VerdictBody v)),
                activatedStore now req userDoc keyDoc expiresAt st)
             /\ valid v = true).
Proof.
  unfold handleLicenseActivate. unfold_calls. fold (cleanKeyOf req).
  destruct (negb (JS.truthyStr (email req)) || negb (JS.truthyStr (licenseKey req))
            || negb (JS.truthyStr (deviceId req)));
    [left; eexists; split; [reflexivity | discriminate]|].
  destruct (Firestore.usersByEmail st (email req)) as [|userDoc rest] eqn:Hu;
    [left; eexists; split; [reflexivity | discriminate]|].
  destruct (Firestore.activeLicenseKeys st (cleanKeyOf req)) as [|keyDoc rest'] eqn:Hk;
    [left; eexists; split; [reflexivity | discriminate]|].
  destruct (JS.truthyStr (LicenseKey.usedBy keyDoc.2)
            && negb (bool_decide (LicenseKey.usedBy keyDoc.2 = Some userDoc.1)))
    eqn:Hused;
    [left; eexists; split; [reflexivity | discriminate]|].
  destruct (LicenseKey.expiresAt keyDoc.2) as [expiresAt|] eqn:Hexp;
    [|left; eexists; split; [reflexivity | discriminate]].
  right. exists userDoc, keyDoc, expiresAt.
  assert (Huser : users st !! userDoc.1 = Some userDoc.2).
  { apply (head_filter_lookup (fun d => User.email d.2 = email req)).
    unfold Firestore.usersByEmail in Hu. rewrite Hu. reflexivity. }
  split; [reflexivity|]. split; [reflexivity|]. split.
  { apply andb_false_iff in Hused as [Hf | Hf]; [left; exact Hf|].
    right. apply negb_false_iff, bool_decide_eq_true in Hf. exact Hf. }
  split; [exact Hexp|].
  unfold Firestore.updateLicense, Firestore.setLicense, Firestore.updateUser,
    activatedStore.
  destruct (licenses st !! userDoc.1) as [d|]; cbn [users Firestore.withLicenses];
    rewrite Huser, getMaintenanceMode_run; eexists; split; reflexivity.
Qed.

(** The activation handler never writes a license key. *)
Lemma handleLicenseActivate_keeps_keys now req st :
  licenseKeys (handleLicenseActivate now req st).2 = licenseKeys st.
Proof.
  destruct (handleLicenseActivate_cases now req st)
    as [(r & Hr & _) | (u & k & e & _ & _ & _ & _ & v & Hv & _)].
  - rewrite Hr. reflexivity.
  - rewrite Hv. reflexivity.
Qed.

(** C2, as amended.  A successful activation writes no license key: the
    redeemed key document is afterwards what it was before, and its
    [usedBy] was, and remains, either unset (or empty) or already the id
    of the redeeming user. *)
Theorem C2_activation_leaves_usedBy_unwritten now req st r st' :
  handleLicenseActivate now req st = (Returned r, st') ->
  status r = 200 ->
  exists userDoc keyDoc,
    head (Firestore.usersByEmail st (email req)) = Some userDoc
    /\ head (Firestore.activeLicenseKeys st (cleanKeyOf req)) = Some keyDoc
    /\ licenseKeys st' = licenseKeys st
    /\ licenseKeys st' !! keyDoc.1 = Some keyDoc.2
    /\ (JS.truthyStr (LicenseKey.usedBy keyDoc.2) = false
        \/ LicenseKey.usedBy keyDoc.2 = Some userDoc.1).
Proof.
  intros Hrun Hok.
  pose proof (handleLicenseActivate_keeps_keys now req st) as Hkeys.
  rewrite Hrun in Hkeys. cbn [snd] in Hkeys.
  destruct (handleLicenseActivate_cases now req st)
    as [(r0 & Hr0 & Hne) | (u & k & e & Hu & Hk & Hused & _ & v & Hv & _)].
  - rewrite Hr0 in Hrun. injection Hrun as -> _. contradiction.
  - exists u, k. split; [exact Hu|]. split; [exact Hk|]. split; [exact Hkeys|].
    split; [|exact Hused]. rewrite Hkeys.
    apply (head_filter_lookup _ _ _ Hk).
Qed.

(** C6.  When the first active key matching the request is used by a
    user id other than the id of the requesting user document, the
    activation answers 403 and the store is left as it was: neither the
    license nor the user document is written. *)
Theorem C6_key_used_by_another_is_forbidden now req st userDoc keyDoc owner :
  JS.truthyStr (email req) = true ->
  JS.truthyStr (licenseKey req) = true ->
  JS.truthyStr (deviceId req) = true ->
  head (Firestore.usersByEmail st (email req)) = Some userDoc ->
  head (Firestore.activeLicenseKeys st (cleanKeyOf req)) = Some keyDoc ->
  LicenseKey.usedBy keyDoc.2 = Some owner ->
  owner <> "" ->
  owner <> userDoc.1 ->
  handleLicenseActivate now req st
  = (Returned (statusJson 403
       (ErrorBody None "This license key is already in use by another account")),
     st).
Proof.
  intros He Hk Hd Hu Hkey Hused Hne Hother.
  apply head_cons_inv in Hu as [rest Hu]. apply head_cons_inv in Hkey as [rest' Hkey].
  unfold handleLicenseActivate. unfold_calls. fold (cleanKeyOf req).
  rewrite He, Hk, Hd. cbn [negb orb]. rewrite Hu, Hkey, Hused.
  rewrite (truthyStr_nonempty owner Hne).
  rewrite bool_decide_eq_false_2 by congruence. reflexivity.
Qed.

(** ** Claims on [verifyAdminToken] and [isAdminUser] *)

(** C8.  Whatever the identity provider does, [verifyAdminToken] and
    [isAdminUser] return and never throw.  A missing or empty
    authorization header, a header that does not start with "Bearer ",
    and a token the provider rejects all give [{ isAdmin: false }]; a
    user the provider cannot fetch gives [false]. *)
Theorem C8_admin_checks_fail_closed (auth : AdminAuth.Auth) :
  (forall req, exists r, AdminAuth.verifyAdminToken req = Returned r)
  /\ (forall req,
        JS.truthyStr (AdminAuth.authorization req) = false
        \/ JS.startsWith "Bearer " (default "" (AdminAuth.authorization req)) = false ->
        AdminAuth.verifyAdminToken req = Returned AdminAuth.notAdmin)
  /\ (forall req e,
        AdminAuth.verifyIdToken
          (JS.substringFrom 7 (default "" (AdminAuth.authorization req)))
        = Thrown e ->
        AdminAuth.verifyAdminToken req = Returned AdminAuth.notAdmin)
  /\ (forall uid, exists b, AdminAuth.isAdminUser uid = Returned b)
  /\ (forall uid e,
        AdminAuth.getUser uid = Thrown e ->
        AdminAuth.isAdminUser uid = Returned false).
Proof.
  unfold AdminAuth.verifyAdminToken, AdminAuth.isAdminUser, otry, obind.
  repeat split.
  - intros req.
    destruct (negb _ || negb _); [eexists; reflexivity|].
    destruct (AdminAuth.verifyIdToken _); eexists; reflexivity.
  - intros req [H | H]; rewrite H; cbn [negb orb]; [reflexivity|].
    rewrite orb_true_r. reflexivity.
  - intros req e H. rewrite H.
    destruct (negb _ || negb _); reflexivity.
  - intros uid. destruct (AdminAuth.getUser uid); eexists; reflexivity.
  - intros uid e H. rewrite H. reflexivity.
Qed.

(** ** The claims at concrete stores *)

Section Concrete.

Import Examples.

Lemma C1_banned_alert_needs_license_witness :
  exists v a,
    handleLicenseVerify (utils := utils0) now0 (request mail) bannedLicensed
    = (Returned (json (VerdictBody v)), bannedLicensed)
    /\ a ∈ alerts v
    /\ dismissible a = false
    /\ message a = "Votre compte a été banni. Raison: Non spécifiée".
Proof.
  destruct (C1_banned_alert_needs_license (utils := utils0) now0 (request mail)
              bannedLicensed (aliceDoc (Some true) None))
    as (v & Hv & _ & Hal & _); try (vm_compute; reflexivity).
  destruct Hal as (a & Hin & _ & _ & Hdis & Hmsg);
    [vm_compute; eexists; reflexivity|].
  exists v, a. repeat split; assumption.
Defined.

(** C1 fails as stated: a banned user without a license document gets
    a verdict that lists no alert at all. *)
Lemma C1_banned_without_license_no_alert :
  User.isBanned (alice (Some true) (Some "spam")) = Some true
  /\ exists v,
       handleLicenseVerify (utils := utils0) now0 (request mail) bannedNoLicense
       = (Returned (json (VerdictBody v)), bannedNoLicense)
       /\ ~ (exists a, a ∈ alerts v /\ type a = modal /\ dismissible a = false).
Proof.
  split; [reflexivity|].
  eexists. split; [vm_compute; reflexivity|].
  cbn [alerts]. intros (a & Hin & _). inversion Hin.
Defined.

Lemma C3_expired_paid_license_invalid_witness :
  exists v,
    handleLicenseVerify (utils := LicenseUtils.specUtils noLimit)
      now0 (request mail) expiredPro
    = (Returned (json (VerdictBody v)), expiredPro)
    /\ valid v = false.
Proof.
  destruct (C3_expired_paid_license_invalid noLimit now0 (request mail) expiredPro
              (aliceDoc None None)
              (license "Pro" (Some 5) (Some 100) (now0 - day)))
    as (v & Hv & Hvalid & _);
    try (vm_compute; reflexivity); try discriminate.
  exists v. split; assumption.
Defined.

Lemma C4_free_tier_verdict_without_license_witness :
  exists v,
    handleLicenseVerify (utils := utils0) now0 (request mail) unlicensed
    = (Returned (json (VerdictBody v)), unlicensed)
    /\ plan v = "Gratuit" /\ messageLimit v = 10 /\ messageCount v = 3
    /\ alerts v = [].
Proof.
  destruct (C4_free_tier_verdict_without_license (utils := utils0) now0
              (request mail) unlicensed (aliceDoc None None))
    as (v & Hv & Hp & Hl & Hc & _ & _ & _ & Ha & _);
    try (vm_compute; reflexivity).
  exists v. repeat split; assumption.
Defined.

Lemma C5_missing_count_blocks_sending_witness :
  exists v,
    handleLicenseVerify (utils := utils0) now0 (request mail)
      Scenarios.uncountedStore
    = (Returned (json (VerdictBody v)), Scenarios.uncountedStore)
    /\ valid v = true
    /\ messageCount v = 0
    /\ messageLimit v = 100
    /\ canSendMessage v = false
    /\ valid v && (messageCount v <? messageLimit v)
       && negb (@LicenseUtils.isLicenseExpired utils0 (now0 + 30 * day) now0)
       = true.
Proof.
  destruct (C5_missing_count_blocks_sending (utils := utils0) now0 (request mail)
              Scenarios.uncountedStore (aliceDoc None None)
              Scenarios.uncountedLicense 100)
    as (v & Hv & Hc & Hl & Hcan & Hdiff); try (vm_compute; reflexivity).
  assert (Hvalid : valid v = true).
  { pose proof Hv as Hrun. vm_compute in Hrun. injection Hrun as <-. reflexivity. }
  destruct (Hdiff Hvalid) as [Hformula _]; [vm_compute; reflexivity|].
  exists v. repeat split; assumption.
Defined.

Lemma C7_expiry_banner_boundaries_witness :
  exists v a,
    handleLicenseVerify (utils := utils0) now0 (request mail) sevenDaysLeft
    = (Returned (json (VerdictBody v)), sevenDaysLeft)
    /\ a ∈ alerts v
    /\ type a = banner
    /\ dismissible a = true
    /\ message a = "Votre licence expire dans 7 jour(s).".
Proof.
  destruct (C7_expiry_banner_boundaries (utils := utils0) now0 (request mail)
              sevenDaysLeft (aliceDoc None None)
              (license "Pro" (Some 5) (Some 100) (now0 + 7 * day)))
    as (v & Hv & Hsoon & _); try (vm_compute; reflexivity).
  destruct Hsoon as (a & Hin & Hty & _ & Hdis & Hmsg);
    [vm_compute; reflexivity | vm_compute; split; [reflexivity | discriminate] |].
  exists v, a. repeat split; assumption.
Defined.

Lemma C10_free_tier_verdict_never_valid_witness :
  exists v,
    handleLicenseVerify (utils := utils0) now0 (request mail) unlicensed
    = (Returned (json (VerdictBody v)), unlicensed)
    /\ valid v = false /\ canSendMessage v = true.
Proof.
  destruct (C10_free_tier_verdict_never_valid (utils := utils0) now0
              (request mail) unlicensed (aliceDoc None None))
    as (v & Hv & Hvalid & Hcan); try (vm_compute; reflexivity).
  exists v. split; [exact Hv|]. split; [exact Hvalid|].
  apply Hcan. vm_compute. reflexivity.
Defined.

Lemma C2_activation_leaves_usedBy_unwritten_witness :
  exists keyDoc,
    head (Firestore.activeLicenseKeys (keyStore (Some "u1")) (cleanKeyOf activation))
    = Some keyDoc
    /\ licenseKeys
         (activatedStore now0 activation (aliceDoc None None)
            ("k1", proKey (Some "u1")) (now0 + 30 * day) (keyStore (Some "u1")))
       !! keyDoc.1 = Some keyDoc.2.
Proof.
  destruct (C2_activation_leaves_usedBy_unwritten now0 activation
              (keyStore (Some "u1"))
              (json (VerdictBody
                 {| valid := true; plan := "Pro"; messageLimit := 100;
                    messageCount := 0; canSendMessage := true;
                    expiresAt := now0 + 30 * day; warnings := [];
                    isBanned := false; isSuspended := false; alerts := [];
                    maintenanceMode := false |}))
              (activatedStore now0 activation (aliceDoc None None)
                 ("k1", proKey (Some "u1")) (now0 + 30 * day)
                 (keyStore (Some "u1"))))
    as (u & k & _ & Hk & _ & Hlook & _); try (vm_compute; reflexivity).
  exists k. split; assumption.
Defined.

(** C2 fails as stated: a user redeems a key that nobody has used, the
    activation succeeds, and the key still has no [usedBy]. *)
Lemma C2_unused_key_stays_unused :
  exists v st',
    handleLicenseActivate now0 activation (keyStore None)
    = (Returned (json (VerdictBody v)), st')
    /\ valid v = true
    /\ head (Firestore.usersByEmail (keyStore None) (email activation))
       = Some (aliceDoc None None)
    /\ LicenseKey.usedBy <$> (licenseKeys st' !! "k1") = Some None
    /\ LicenseKey.usedBy <$> (licenseKeys st' !! "k1") <> Some (Some "u1").
Proof.
  eexists. eexists. split; [vm_compute; reflexivity|].
  split; [reflexivity|]. split; [vm_compute; reflexivity|].
  split; [vm_compute; reflexivity | vm_compute; discriminate].
Defined.

Lemma C6_key_used_by_another_is_forbidden_witness :
  handleLicenseActivate now0 activation (keyStore (Some "u2"))
  = (Returned (statusJson 403
       (ErrorBody None "This license key is already in use by another account")),
     keyStore (Some "u2")).
Proof.
  apply (C6_key_used_by_another_is_forbidden now0 activation
           (keyStore (Some "u2")) (aliceDoc None None)
           ("k1", proKey (Some "u2")) "u2");
    try (vm_compute; reflexivity); discriminate.
Defined.

Lemma C8_admin_checks_fail_closed_witness :
  AdminAuth.verifyAdminToken (auth := rejectingAuth)
    {| AdminAuth.authorization := None |} = Returned AdminAuth.notAdmin
  /\ AdminAuth.verifyAdminToken (auth := rejectingAuth)
       {| AdminAuth.authorization := Some "Basic abc" |}
     = Returned AdminAuth.notAdmin
  /\ AdminAuth.verifyAdminToken (auth := rejectingAuth)
       {| AdminAuth.authorization := Some "Bearer abc" |}
     = Returned AdminAuth.notAdmin
  /\ AdminAuth.isAdminUser (auth := rejectingAuth) "u1" = Returned false.
Proof.
  destruct (C8_admin_checks_fail_closed rejectingAuth)
    as (_ & Hheader & Htoken & _ & Huser).
  split; [apply Hheader; left; reflexivity|].
  split; [apply Hheader; right; reflexivity|].
  split; [apply (Htoken _ (ProviderError "auth/argument-error")); reflexivity|].
  apply (Huser _ (ProviderError "auth/user-not-found")). reflexivity.
Defined.

(** The two examples of the specification. *)
Example pro_license_three_days_left :
  exists v,
    handleLicenseVerify (utils := utils0) now0 (request mail) proStore
    = (Returned (json (VerdictBody v)), proStore)
    /\ valid v = true
    /\ canSendMessage v = true
    /\ alerts v = [expiresSoonAlert 3]
    /\ message (expiresSoonAlert 3) = "Votre licence expire dans 3 jour(s).".
Proof. eexists. split; [vm_compute; reflexivity|]. repeat split. Qed.

Example activation_key_is_normalised :
  JS.toUpperCase (JS.removeDashes "ABCD-1234") = "ABCD1234"
  /\ cleanKeyOf activation = "ABCD1234".
Proof. split; reflexivity. Qed.

End Concrete.


(** * Further properties of the routes *)

Import IncrementRoute.

(** An empty query snapshot: no document of the collection matches. *)
Lemma filter_map_to_list_nil {A} (P : string * A -> Prop)
    `{forall d, Decision (P d)} (m : gmap string A) :
  (forall i x, m !! i = Some x -> ~ P (i, x)) -> filter P (map_to_list m) = [].
Proof.
  intros Hnone. destruct (filter P (map_to_list m)) as [|d l] eqn:E; [reflexivity|].
  assert (Hd : head (filter P (map_to_list m)) = Some d) by (rewrite E; reflexivity).
  apply head_filter_lookup in Hd as [Hl HP]. destruct d as [i x].
  exfalso. exact (Hnone i x Hl HP).
Qed.

(** Rewriting the one document a query lists, without changing whether
    it matches, gives a snapshot with that one document rewritten. *)
Lemma filter_map_to_list_insert_single {A} (P : string * A -> Prop)
    `{forall d, Decision (P d)} (m : gmap string A) (i : string) (x y : A) :
  filter P (map_to_list m) = [(i, x)] -> P (i, y) ->
  filter P (map_to_list (<[i := y]> m)) = [(i, y)].
Proof.
  intros Hone Hy.
  assert (Hi : m !! i = Some x).
  { apply (head_filter_lookup P m (i, x)). rewrite Hone. reflexivity. }
  assert (Hx : P (i, x)).
  { apply (head_filter_lookup P m (i, x)). rewrite Hone. reflexivity. }
  assert (Hrest : filter P (map_to_list (delete i m)) = []).
  { pose proof (map_to_list_delete m i x Hi) as Hperm.
    apply (filter_Permutation P) in Hperm.
    rewrite filter_cons_True in Hperm by exact Hx.
    rewrite Hone in Hperm. apply Permutation_cons_inv in Hperm.
    apply Permutation_nil_r in Hperm. exact Hperm. }
  apply Permutation_singleton_r.
  rewrite <- (insert_delete_eq m i y).
  rewrite (map_to_list_insert (delete i m) i y) by apply lookup_delete_eq.
  rewrite filter_cons_True by exact Hy. rewrite Hrest. reflexivity.
Qed.

Section VerifyExits.

Context {utils : LicenseUtils.Utils}.

(** Every run of the verify handler is one of its four exits. *)
Lemma handleLicenseVerify_cases now req st :
  (JS.truthyStr (email req) && JS.truthyStr (deviceId req) = false
   /\ handleLicenseVerify now req st
      = (Returned (statusJson 400
           (ErrorBody (Some false) "Email and device ID are required")), st))
  \/ (Firestore.usersByEmail st (email req) = []
      /\ handleLicenseVerify now req st
         = (Returned (statusJson 404 (ErrorBody (Some false) "User not found")), st))
  \/ (exists userDoc,
        JS.truthyStr (email req) = true /\ JS.truthyStr (deviceId req) = true
        /\ head (Firestore.usersByEmail st (email req)) = Some userDoc
        /\ licenses st !! licenseOwner userDoc = None)
  \/ (exists userDoc lic,
        JS.truthyStr (email req) = true /\ JS.truthyStr (deviceId req) = true
        /\ head (Firestore.usersByEmail st (email req)) = Some userDoc
        /\ licenses st !! licenseOwner userDoc = Some lic).
Proof.
  destruct (JS.truthyStr (email req)) eqn:He;
    [destruct (JS.truthyStr (deviceId req)) eqn:Hd|].
  - destruct (Firestore.usersByEmail st (email req)) as [|userDoc rest] eqn:Hu.
    + right; left. split; [reflexivity|].
      unfold handleLicenseVerify. unfold_calls.
      rewrite He, Hd. cbn [negb orb]. rewrite Hu. reflexivity.
    + destruct (licenses st !! licenseOwner userDoc) as [lic|] eqn:Hl.
      * right; right; right. exists userDoc, lic. repeat split; assumption.
      * right; right; left. exists userDoc. repeat split; assumption.
  - left. split; [reflexivity|].
    unfold handleLicenseVerify. unfold_calls. rewrite He, Hd. reflexivity.
  - left. split; [reflexivity|].
    unfold handleLicenseVerify. unfold_calls. rewrite He. reflexivity.
Qed.

End VerifyExits.

Section VerifyExtras.

Context {utils : LicenseUtils.Utils}.

(** X1.  The status of the verify answer is decided by the request and
    the user collection alone: 400 exactly when [email] or [deviceId] is
    missing or empty, 404 exactly when both are given and no user
    document has the email, 200 exactly when both are given and some
    user document has the email.  The store is never written. *)
Theorem verify_status_by_exit now req st :
  exists r,
    handleLicenseVerify now req st = (Returned r, st)
    /\ (status r = 400
        <-> JS.truthyStr (email req) && JS.truthyStr (deviceId req) = false)
    /\ (status r = 404
        <-> JS.truthyStr (email req) && JS.truthyStr (deviceId req) = true
            /\ forall i u, users st !! i = Some u -> User.email u <> email req)
    /\ (status r = 200
        <-> JS.truthyStr (email req) && JS.truthyStr (deviceId req) = true
            /\ exists i u, users st !! i = Some u /\ User.email u = email req).
Proof.
  destruct (handleLicenseVerify_cases now req st)
    as [[Hbad Hr] | [[Hnone Hr] | [(ud & He & Hd & Hu & Hl) | (ud & lic & He & Hd & Hu & Hl)]]].
  - rewrite Hr. eexists. split; [reflexivity|]. cbn [status statusJson].
    rewrite Hbad. repeat split; try discriminate; intros [? _]; discriminate.
  - destruct (JS.truthyStr (email req) && JS.truthyStr (deviceId req)) eqn:Hok.
    + rewrite Hr. eexists. split; [reflexivity|]. cbn [status statusJson].
      assert (Hno : forall i u, users st !! i = Some u -> User.email u <> email req).
      { intros i u Hi Heq.
        assert (Hin : (i, u) ∈ Firestore.usersByEmail st (email req)).
        { apply list_elem_of_filter. split; [exact Heq|].
          apply elem_of_map_to_list. exact Hi. }
        rewrite Hnone in Hin. inversion Hin. }
      repeat split; try discriminate; try assumption.
      intros (_ & i & u & Hi & Heq). exfalso. exact (Hno i u Hi Heq).
    + unfold handleLicenseVerify. unfold_calls.
      apply andb_false_iff in Hok.
      assert (Hneg : negb (JS.truthyStr (email req))
                     || negb (JS.truthyStr (deviceId req)) = true).
      { destruct Hok as [-> | ->]; [reflexivity | apply orb_true_r]. }
      rewrite Hneg. eexists. split; [reflexivity|]. cbn [status statusJson].
      repeat split; try discriminate; intros [? _]; discriminate.
  - rewrite (handleLicenseVerify_no_license now req st ud He Hd Hu Hl).
    eexists. split; [reflexivity|]. cbn [status json]. rewrite He, Hd.
    apply (head_filter_lookup (fun d => User.email d.2 = email req)) in Hu as [Hi Heq].
    repeat split; try discriminate.
    + intros [_ Hno]. exfalso. exact (Hno _ _ Hi Heq).
    + exists ud.1, ud.2. split; assumption.
  - rewrite (handleLicenseVerify_licensed now req st ud lic He Hd Hu Hl).
    eexists. split; [reflexivity|]. cbn [status json]. rewrite He, Hd.
    apply (head_filter_lookup (fun d => User.email d.2 = email req)) in Hu as [Hi Heq].
    repeat split; try discriminate.
    + intros [_ Hno]. exfalso. exact (Hno _ _ Hi Heq).
    + exists ud.1, ud.2. split; assumption.
Qed.

(** X2.  The verify handler reads neither the license key of the request
    nor the value of its device id: two requests with the same email and
    some device id each get the same answer. *)
Theorem verify_ignores_key_and_device now req1 req2 st :
  email req1 = email req2 ->
  JS.truthyStr (deviceId req1) = true ->
  JS.truthyStr (deviceId req2) = true ->
  handleLicenseVerify now req1 st = handleLicenseVerify now req2 st.
Proof.
  intros He H1 H2. unfold handleLicenseVerify. rewrite He, H1, H2. reflexivity.
Qed.

(** The license-expired alert is listed only for an expired license on a
    plan other than "Gratuit". *)
Lemma expired_in_alertsFor now u lic a :
  a ∈ alertsFor now u lic -> title a = "Licence Expirée" ->
  LicenseUtils.isLicenseExpired (LicenseDoc.expiresAt lic) now = true
  /\ LicenseDoc.plan lic <> "Gratuit".
Proof.
  unfold alertsFor. intros Hin Hti.
  rewrite !elem_of_app in Hin. destruct Hin as [Hin | [Hin | Hin]].
  - destruct (LicenseUtils.isLicenseExpired _ _ && _) eqn:Hexp.
    + apply andb_prop in Hexp as [H1 H2]. split; [exact H1|].
      apply negb_true_iff, bool_decide_eq_false in H2. exact H2.
    + destruct (_ && _) in Hin; [|inversion Hin].
      apply list_elem_of_singleton in Hin. subst a. discriminate.
  - destruct (JS.truthyBool _); [|inversion Hin].
    apply list_elem_of_singleton in Hin. subst a. discriminate.
  - destruct (JS.truthyBool _); [|inversion Hin].
    apply list_elem_of_singleton in Hin. subst a. discriminate.
Qed.

(** X3.  In a verdict for a user who has a license document, whatever
    the license utilities answer: the license-expired alert and the
    expires-soon banner are never listed together, at most three alerts
    are listed, and on the plan "Gratuit" the license-expired alert is
    never listed. *)
Theorem verify_expiry_alerts_exclusive now req st userDoc lic :
  JS.truthyStr (email req) = true ->
  JS.truthyStr (deviceId req) = true ->
  head (Firestore.usersByEmail st (email req)) = Some userDoc ->
  licenses st !! licenseOwner userDoc = Some lic ->
  exists v,
    handleLicenseVerify now req st = (Returned (json (VerdictBody v)), st)
    /\ (forall a b, a ∈ alerts v -> b ∈ alerts v ->
          title a = "Licence Expirée" -> type b = banner -> False)
    /\ (length (alerts v) <= 3)%nat
    /\ (LicenseDoc.plan lic = "Gratuit" ->
        forall a, a ∈ alerts v -> title a <> "Licence Expirée").
Proof.
  intros He Hd Hu Hl.
  rewrite (handleLicenseVerify_licensed now req st userDoc lic He Hd Hu Hl).
  eexists. split; [reflexivity|]. cbn [alerts]. split; [|split].
  - intros a b Ha Hb Hti Hty.
    destruct (expired_in_alertsFor now userDoc.2 lic a Ha Hti) as [Hexp Hplan].
    destruct (banner_in_alertsFor now userDoc.2 lic b Hb Hty) as (_ & _ & Hno).
    rewrite Hexp, bool_decide_eq_false_2 in Hno by exact Hplan. discriminate.
  - unfold alertsFor.
    repeat match goal with |- context [if ?b then _ else _] => destruct b end;
      cbn; lia.
  - intros Hfree a Ha Hti.
    destruct (expired_in_alertsFor now userDoc.2 lic a Ha Hti) as [_ Hplan].
    contradiction.
Qed.

(** The titles of the account alerts, by origin. *)
Lemma account_alerts_in_alertsFor now u lic :
  ((exists a, a ∈ alertsFor now u lic /\ title a = "Compte Banni")
   <-> JS.truthyBool (User.isBanned u) = true)
  /\ ((exists a, a ∈ alertsFor now u lic /\ title a = "Compte Suspendu")
      <-> JS.truthyBool (User.isSuspended u) = true).
Proof.
  unfold alertsFor.
  set (first := if LicenseUtils.isLicenseExpired _ _ && _ then _ else _).
  assert (Hfirst : forall a, a ∈ first ->
            title a <> "Compte Banni" /\ title a <> "Compte Suspendu").
  { intros a Ha. subst first.
    destruct (LicenseUtils.isLicenseExpired _ _ && _).
    - apply list_elem_of_singleton in Ha. subst a. split; discriminate.
    - destruct (_ && _).
      + apply list_elem_of_singleton in Ha. subst a. split; discriminate.
      + inversion Ha. }
  split; split.
  - intros (a & Ha & Hti). rewrite !elem_of_app in Ha.
    destruct Ha as [Ha | [Ha | Ha]].
    + destruct (Hfirst a Ha) as [Hn _]. contradiction.
    + destruct (JS.truthyBool (User.isBanned u)); [reflexivity | inversion Ha].
    + destruct (JS.truthyBool (User.isSuspended u)); [|inversion Ha].
      apply list_elem_of_singleton in Ha. subst a. discriminate.
  - intros Hb. rewrite Hb. exists (bannedAlert (User.banReason u)).
    split; [|reflexivity]. rewrite !elem_of_app. right; left.
    apply list_elem_of_singleton. reflexivity.
  - intros (a & Ha & Hti). rewrite !elem_of_app in Ha.
    destruct Ha as [Ha | [Ha | Ha]].
    + destruct (Hfirst a Ha) as [_ Hn]. contradiction.
    + destruct (JS.truthyBool (User.isBanned u)); [|inversion Ha].
      apply list_elem_of_singleton in Ha. subst a. discriminate.
    + destruct (JS.truthyBool (User.isSuspended u)); [reflexivity | inversion Ha].
  - intros Hs. rewrite Hs. exists suspendedAlert.
    split; [|reflexivity]. rewrite !elem_of_app. right; right.
    apply list_elem_of_singleton. reflexivity.
Qed.

(** X4.  In a verdict for a user who has a license document, the banned
    alert is listed exactly when the verdict reports [isBanned], the
    suspended alert exactly when it reports [isSuspended], and when both
    are reported the alerts end with the banned alert followed by the
    suspended alert. *)
Theorem verify_account_alerts_match_flags now req st userDoc lic :
  JS.truthyStr (email req) = true ->
  JS.truthyStr (deviceId req) = true ->
  head (Firestore.usersByEmail st (email req)) = Some userDoc ->
  licenses st !! licenseOwner userDoc = Some lic ->
  exists v,
    handleLicenseVerify now req st = (Returned (json (VerdictBody v)), st)
    /\ ((exists a, a ∈ alerts v /\ title a = "Compte Banni") <-> isBanned v = true)
    /\ ((exists a, a ∈ alerts v /\ title a = "Compte Suspendu")
        <-> isSuspended v = true)
    /\ (isBanned v = true -> isSuspended v = true ->
        exists before,
          alerts v
          = (before ++ [bannedAlert (User.banReason userDoc.2); suspendedAlert])%list).
Proof.
  intros He Hd Hu Hl.
  rewrite (handleLicenseVerify_licensed now req st userDoc lic He Hd Hu Hl).
  eexists. split; [reflexivity|]. cbn [alerts isBanned isSuspended].
  destruct (account_alerts_in_alertsFor now userDoc.2 lic) as [Hb Hs].
  split; [exact Hb|]. split; [exact Hs|].
  unfold JS.orFalse, alertsFor. intros -> ->. eexists. reflexivity.
Qed.

End VerifyExtras.

(** X5.  The warnings of a verdict for a user who has a license document
    are the warning documents of that user whose [isRead] is stored as
    [false], each with its document id unless the document carries an
    [id] of its own; a warning that is read, or has no [isRead], is not
    listed. *)
Theorem verify_lists_unread_warnings {utils : LicenseUtils.Utils}
    now req st userDoc lic :
  JS.truthyStr (email req) = true ->
  JS.truthyStr (deviceId req) = true ->
  head (Firestore.usersByEmail st (email req)) = Some userDoc ->
  licenses st !! licenseOwner userDoc = Some lic ->
  exists v,
    handleLicenseVerify now req st = (Returned (json (VerdictBody v)), st)
    /\ forall w,
         w ∈ warnings v
         <-> exists i d,
               default ∅ (userWarnings st !! licenseOwner userDoc) !! i = Some d
               /\ WarningDoc.isRead d = Some false
               /\ w = {| warningId := default i (WarningDoc.id d);
                         warningIsRead := Some false;
                         warningMessage := WarningDoc.message d |}.
Proof.
  intros He Hd Hu Hl.
  rewrite (handleLicenseVerify_licensed now req st userDoc lic He Hd Hu Hl).
  eexists. split; [reflexivity|]. cbn [warnings]. intros w.
  rewrite list_elem_of_In, in_map_iff. unfold Firestore.unreadWarnings. split.
  - intros ([i d] & Hw & Hin). apply list_elem_of_In, list_elem_of_filter in Hin.
    destruct Hin as [Hread Hin]. apply elem_of_map_to_list in Hin.
    exists i, d. cbn [snd] in Hread. split; [exact Hin|]. split; [exact Hread|].
    subst w. unfold toWarning. cbn [fst snd]. rewrite Hread. reflexivity.
  - intros (i & d & Hin & Hread & ->). exists (i, d). split.
    + unfold toWarning. cbn [fst snd]. rewrite Hread. reflexivity.
    + apply list_elem_of_In, list_elem_of_filter. split; [exact Hread|].
      apply elem_of_map_to_list. exact Hin.
Qed.

(** The answer of a successful activation, and the store it leaves. *)
Lemma handleLicenseActivate_succeeds now req st userDoc keyDoc expiry :
  JS.truthyStr (email req) = true ->
  JS.truthyStr (licenseKey req) = true ->
  JS.truthyStr (deviceId req) = true ->
  head (Firestore.usersByEmail st (email req)) = Some userDoc ->
  head (Firestore.activeLicenseKeys st (cleanKeyOf req)) = Some keyDoc ->
  JS.truthyStr (LicenseKey.usedBy keyDoc.2) = false
  \/ LicenseKey.usedBy keyDoc.2 = Some userDoc.1 ->
  LicenseKey.expiresAt keyDoc.2 = Some expiry ->
  handleLicenseActivate now req st
  = (Returned (json (VerdictBody
       {| valid := true;
          plan := LicenseKey.plan keyDoc.2;
          messageLimit := JS.orZero (LicenseKey.messageLimit keyDoc.2);
          messageCount := 0;
          canSendMessage := true;
          expiresAt := expiry;
          warnings := [];
          isBanned := false;
          isSuspended := false;
          alerts := [];
          maintenanceMode :=
            JS.orFalse (maintenance st ≫= MaintenanceConfig.enabled) |})),
     activatedStore now req userDoc keyDoc expiry st).
Proof.
  intros He Hk Hd Hu Hkey Hused Hexp.
  assert (Huser : users st !! userDoc.1 = Some userDoc.2).
  { apply (head_filter_lookup (fun d => User.email d.2 = email req) _ _ Hu). }
  apply head_cons_inv in Hu as [rest Hu]. apply head_cons_inv in Hkey as [rest' Hkey].
  unfold handleLicenseActivate. unfold_calls. fold (cleanKeyOf req).
  rewrite He, Hk, Hd. cbn [negb orb]. rewrite Hu, Hkey.
  assert (Hguard : JS.truthyStr (LicenseKey.usedBy keyDoc.2)
                   && negb (bool_decide (LicenseKey.usedBy keyDoc.2 = Some userDoc.1))
                   = false).
  { destruct Hused as [-> | Hown]; [reflexivity|].
    rewrite (bool_decide_eq_true_2 _ Hown). apply andb_false_r. }
  rewrite Hguard, Hexp.
  unfold Firestore.updateLicense, Firestore.setLicense, Firestore.updateUser,
    activatedStore.
  destruct (licenses st !! userDoc.1) as [d|]; cbn [users Firestore.withLicenses];
    rewrite Huser, getMaintenanceMode_run; reflexivity.
Qed.

(** A request without one of its three fields. *)
Lemma handleLicenseActivate_bad_request now req st :
  JS.truthyStr (email req) && JS.truthyStr (licenseKey req)
  && JS.truthyStr (deviceId req) = false ->
  handleLicenseActivate now req st
  = (Returned (statusJson 400
       (ErrorBody None "Email, license key, and device ID are required")), st).
Proof.
  intros Hf. unfold handleLicenseActivate. unfold_calls.
  destruct (JS.truthyStr (email req)), (JS.truthyStr (licenseKey req)),
    (JS.truthyStr (deviceId req)); try discriminate; reflexivity.
Qed.

(** What a 200 answer of the activation handler tells. *)
Lemma handleLicenseActivate_ok_inv now req st r st' :
  handleLicenseActivate now req st = (Returned r, st') ->
  status r = 200 ->
  JS.truthyStr (email req) = true
  /\ JS.truthyStr (licenseKey req) = true
  /\ JS.truthyStr (deviceId req) = true
  /\ exists userDoc keyDoc expiry,
       head (Firestore.usersByEmail st (email req)) = Some userDoc
       /\ head (Firestore.activeLicenseKeys st (cleanKeyOf req)) = Some keyDoc
       /\ (JS.truthyStr (LicenseKey.usedBy keyDoc.2) = false
           \/ LicenseKey.usedBy keyDoc.2 = Some userDoc.1)
       /\ LicenseKey.expiresAt keyDoc.2 = Some expiry.
Proof.
  intros Hrun Hok.
  destruct (JS.truthyStr (email req) && JS.truthyStr (licenseKey req)
            && JS.truthyStr (deviceId req)) eqn:Hf.
  - apply andb_prop in Hf as [Hf Hd]. apply andb_prop in Hf as [He Hk].
    split; [exact He|]. split; [exact Hk|]. split; [exact Hd|].
    destruct (handleLicenseActivate_cases now req st)
      as [(r0 & Hr0 & Hne) | (u & k & e & Hu & Hkey & Hused & Hexp & _)].
    + rewrite Hr0 in Hrun. injection Hrun as -> _. contradiction.
    + exists u, k, e. repeat split; assumption.
  - rewrite (handleLicenseActivate_bad_request now req st Hf) in Hrun.
    injection Hrun as <- _. discriminate.
Qed.

(** X6.  The [maintenanceMode] of every verdict, from the verify handler
    and from the activation handler alike, is true exactly when the
    maintenance document exists and stores [enabled] as [true]; a missing
    document or a missing field reads as false. *)
Theorem verdicts_report_maintenance {utils : LicenseUtils.Utils} now req st :
  (forall v st',
     handleLicenseVerify now req st = (Returned (json (VerdictBody v)), st') ->
     maintenanceMode v = true
     <-> exists c, maintenance st = Some c /\ MaintenanceConfig.enabled c = Some true)
  /\ (forall v st',
        handleLicenseActivate now req st = (Returned (json (VerdictBody v)), st') ->
        maintenanceMode v = true
        <-> exists c, maintenance st = Some c /\ MaintenanceConfig.enabled c = Some true).
Proof.
  assert (Hflag :
    JS.orFalse (maintenance st ≫= MaintenanceConfig.enabled) = true
    <-> exists c, maintenance st = Some c /\ MaintenanceConfig.enabled c = Some true).
  { destruct (maintenance st) as [[[[]|]]|]; cbn; split;
      try discriminate; try (intros (c & Hc & He); congruence).
    - intros _. eexists. split; reflexivity.
    - intros (c & Hc & He). injection Hc as <-. discriminate.
    - intros (c & Hc & He). injection Hc as <-. discriminate. }
  split; intros v st' Hrun.
  - destruct (handleLicenseVerify_cases now req st)
      as [[_ Hr] | [[_ Hr] | [(ud & He & Hd & Hu & Hl) | (ud & lic & He & Hd & Hu & Hl)]]].
    + rewrite Hr in Hrun. discriminate.
    + rewrite Hr in Hrun. discriminate.
    + rewrite (handleLicenseVerify_no_license now req st ud He Hd Hu Hl) in Hrun.
      injection Hrun as <- _. exact Hflag.
    + rewrite (handleLicenseVerify_licensed now req st ud lic He Hd Hu Hl) in Hrun.
      injection Hrun as <- _. exact Hflag.
  - destruct (handleLicenseActivate_cases now req st)
      as [(r & Hr & Hne) | (u & k & e & Hu & Hk & Hused & Hexp & v0 & Hv & _)].
    + rewrite Hr in Hrun. injection Hrun as -> _. exfalso. apply Hne. reflexivity.
    + destruct (handleLicenseActivate_ok_inv now req st _ _ Hv eq_refl)
        as (He & Hkk & Hd & _).
      rewrite (handleLicenseActivate_succeeds now req st u k e He Hkk Hd Hu Hk Hused Hexp)
        in Hrun.
      injection Hrun as <- _. exact Hflag.
Qed.

(** ** The activation handler *)

(** X7.  The activation handler always answers, with one of the statuses
    200, 400, 403, 404 and 500, and every answer other than 200 leaves
    the whole store as it was. *)
Theorem activate_writes_only_on_success now req st :
  exists r st',
    handleLicenseActivate now req st = (Returned r, st')
    /\ status r ∈ [200; 400; 403; 404; 500]
    /\ (status r <> 200 -> st' = st).
Proof.
  unfold handleLicenseActivate. unfold_calls. fold (cleanKeyOf req).
  destruct (negb (JS.truthyStr (email req)) || negb (JS.truthyStr (licenseKey req))
            || negb (JS.truthyStr (deviceId req)));
    [do 2 eexists; split; [reflexivity|]; split; [set_solver | reflexivity]|].
  destruct (Firestore.usersByEmail st (email req)) as [|userDoc rest] eqn:Hu;
    [do 2 eexists; split; [reflexivity|]; split; [set_solver | reflexivity]|].
  destruct (Firestore.activeLicenseKeys st (cleanKeyOf req)) as [|keyDoc rest'];
    [do 2 eexists; split; [reflexivity|]; split; [set_solver | reflexivity]|].
  destruct (JS.truthyStr (LicenseKey.usedBy keyDoc.2) && _);
    [do 2 eexists; split; [reflexivity|]; split; [set_solver | reflexivity]|].
  destruct (LicenseKey.expiresAt keyDoc.2) as [expiry|];
    [|do 2 eexists; split; [reflexivity|]; split; [set_solver | reflexivity]].
  assert (Huser : users st !! userDoc.1 = Some userDoc.2).
  { apply (head_filter_lookup (fun d => User.email d.2 = email req)).
    unfold Firestore.usersByEmail in Hu. rewrite Hu. reflexivity. }
  unfold Firestore.updateLicense, Firestore.setLicense, Firestore.updateUser.
  destruct (licenses st !! userDoc.1) as [d|]; cbn [users Firestore.withLicenses];
    rewrite Huser, getMaintenanceMode_run;
    do 2 eexists; (split; [reflexivity|]); (split; [set_solver|]);
    intros Hne; exfalso; apply Hne; reflexivity.
Qed.

(** X8.  A key that no active key document stores is refused.  For a
    request whose license key is made of ASCII characters: when every
    key document whose [key] is the normalised key of the request has an
    [isActive] other than [true], or there is none, a known user gets 404
    and nothing is written. *)
Theorem activate_refuses_inactive_key now req st userDoc :
  JS.truthyStr (email req) = true ->
  JS.truthyStr (licenseKey req) = true ->
  JS.truthyStr (deviceId req) = true ->
  JS.isAscii (default "" (licenseKey req)) = true ->
  head (Firestore.usersByEmail st (email req)) = Some userDoc ->
  (forall i k, licenseKeys st !! i = Some k ->
     LicenseKey.key k = cleanKeyOf req -> LicenseKey.isActive k <> Some true) ->
  handleLicenseActivate now req st
  = (Returned (statusJson 404 (ErrorBody None "Invalid or inactive license key")),
     st).
Proof.
  intros He Hk Hd _ Hu Hnone. apply head_cons_inv in Hu as [rest Hu].
  unfold handleLicenseActivate. unfold_calls. fold (cleanKeyOf req).
  rewrite He, Hk, Hd. cbn [negb orb]. rewrite Hu.
  unfold Firestore.activeLicenseKeys.
  rewrite filter_map_to_list_nil; [reflexivity|].
  intros i k Hi [Hkey Hact]. exact (Hnone i k Hi Hkey Hact).
Qed.

(** X9.  A key whose stored expiry is not a date is not redeemed: the
    activation answers 500 and nothing is written. *)
Theorem activate_invalid_expiry_fails now req st userDoc keyDoc :
  JS.truthyStr (email req) = true ->
  JS.truthyStr (licenseKey req) = true ->
  JS.truthyStr (deviceId req) = true ->
  head (Firestore.usersByEmail st (email req)) = Some userDoc ->
  head (Firestore.activeLicenseKeys st (cleanKeyOf req)) = Some keyDoc ->
  JS.truthyStr (LicenseKey.usedBy keyDoc.2) = false
  \/ LicenseKey.usedBy keyDoc.2 = Some userDoc.1 ->
  LicenseKey.expiresAt keyDoc.2 = None ->
  handleLicenseActivate now req st
  = (Returned (statusJson 500 (ErrorBody None "License activation failed")), st).
Proof.
  intros He Hk Hd Hu Hkey Hused Hexp.
  apply head_cons_inv in Hu as [rest Hu]. apply head_cons_inv in Hkey as [rest' Hkey].
  unfold handleLicenseActivate. unfold_calls. fold (cleanKeyOf req).
  rewrite He, Hk, Hd. cbn [negb orb]. rewrite Hu, Hkey.
  assert (Hguard : JS.truthyStr (LicenseKey.usedBy keyDoc.2)
                   && negb (bool_decide (LicenseKey.usedBy keyDoc.2 = Some userDoc.1))
                   = false).
  { destruct Hused as [-> | Hown]; [reflexivity|].
    rewrite (bool_decide_eq_true_2 _ Hown). apply andb_false_r. }
  rewrite Hguard, Hexp. reflexivity.
Qed.

(** X10.  What a successful activation writes.  The license document of
    the requesting user takes the plan, limit and expiry of the key, the
    normalised key, a count of 0 and the instant of the request as reset
    date; the user document has its ban and suspension flags set to
    false and keeps its other fields; the license and user documents of
    every other id, the warnings, the license keys and the maintenance
    document are untouched. *)
Theorem activate_success_effect now req st r st' :
  handleLicenseActivate now req st = (Returned r, st') ->
  status r = 200 ->
  exists userDoc keyDoc expiry lic' user',
    head (Firestore.usersByEmail st (email req)) = Some userDoc
    /\ head (Firestore.activeLicenseKeys st (cleanKeyOf req)) = Some keyDoc
    /\ LicenseKey.expiresAt keyDoc.2 = Some expiry
    /\ licenses st' !! userDoc.1 = Some lic'
    /\ LicenseDoc.plan lic' = LicenseKey.plan keyDoc.2
    /\ LicenseDoc.licenseKey lic' = Some (cleanKeyOf req)
    /\ LicenseDoc.expiresAt lic' = expiry
    /\ LicenseDoc.isActive lic' = Some true
    /\ LicenseDoc.messageCount lic' = Some 0
    /\ LicenseDoc.messageLimit lic'
       = Some (JS.orZero (LicenseKey.messageLimit keyDoc.2))
    /\ LicenseDoc.lastResetDate lic' = Some now
    /\ users st' !! userDoc.1 = Some user'
    /\ User.isBanned user' = Some false
    /\ User.isSuspended user' = Some false
    /\ User.email user' = User.email userDoc.2
    /\ User.messageCount user' = User.messageCount userDoc.2
    /\ User.banReason user' = User.banReason userDoc.2
    /\ (forall j, j <> userDoc.1 ->
          licenses st' !! j = licenses st !! j /\ users st' !! j = users st !! j)
    /\ userWarnings st' = userWarnings st
    /\ licenseKeys st' = licenseKeys st
    /\ maintenance st' = maintenance st.
Proof.
  intros Hrun Hok.
  destruct (handleLicenseActivate_ok_inv now req st r st' Hrun Hok)
    as (He & Hk & Hd & u & k & e & Hu & Hkey & Hused & Hexp).
  rewrite (handleLicenseActivate_succeeds now req st u k e He Hk Hd Hu Hkey Hused Hexp)
    in Hrun.
  injection Hrun as _ <-.
  exists u, k, e.
  exists (match licenses st !! u.1 with
          | Some d => activatedFields k.2 (cleanKeyOf req) e now d
          | None => activatedLicense k.2 (cleanKeyOf req) e now u.1
          end), (clearedFlags u.2).
  unfold activatedStore.
  cbn [licenses users userWarnings licenseKeys maintenance
       Firestore.withUsers Firestore.withLicenses].
  rewrite !lookup_insert_eq.
  repeat match goal with |- _ /\ _ => split end;
    try assumption; try reflexivity;
    try (destruct (licenses st !! u.1); reflexivity).
  intros j Hj. rewrite !lookup_insert_ne by congruence. split; reflexivity.
Qed.

(** Normalising leaves neither a dash nor a letter a to z, and keeps a
    string of ASCII characters one. *)
Lemma isKeyChar_upperChar (c : ascii) :
  Ascii.eqb c "-"%char = false -> JS.isKeyChar (JS.upperChar c) = true.
Proof.
  destruct c as [[] [] [] [] [] [] [] []]; intros H;
    first [discriminate H | reflexivity].
Qed.

Lemma isAsciiChar_upperChar (c : ascii) :
  JS.isAsciiChar c = true -> JS.isAsciiChar (JS.upperChar c) = true.
Proof.
  destruct c as [[] [] [] [] [] [] [] []]; intros H;
    first [discriminate H | reflexivity].
Qed.

Lemma normalise_keyChars (s : string) :
  JS.allChars JS.isKeyChar (JS.toUpperCase (JS.removeDashes s)) = true.
Proof.
  induction s as [|c s IH]; [reflexivity|].
  cbn [JS.removeDashes]. destruct (Ascii.eqb c "-"%char) eqn:Hc; [exact IH|].
  cbn [JS.toUpperCase JS.allChars].
  rewrite (isKeyChar_upperChar c Hc), IH. reflexivity.
Qed.

Lemma normalise_ascii (s : string) :
  JS.isAscii s = true -> JS.isAscii (JS.toUpperCase (JS.removeDashes s)) = true.
Proof.
  unfold JS.isAscii. induction s as [|c s IH]; [reflexivity|].
  cbn [JS.allChars]. intros H. apply andb_prop in H as [Hc Hs].
  cbn [JS.removeDashes]. destruct (Ascii.eqb c "-"%char); [exact (IH Hs)|].
  cbn [JS.toUpperCase JS.allChars].
  rewrite (isAsciiChar_upperChar c Hc), (IH Hs). reflexivity.
Qed.

(** X11.  What key a request made of ASCII characters redeems: after a
    200 answer, some active key document stores exactly the license key
    of the request with its dashes removed and its letters a to z in
    upper case; that stored key is made of ASCII characters and has no
    dash and no letter a to z.  So such a request never redeems a key
    that is stored with a dash or a lower-case letter. *)
Theorem activate_redeems_normalised_keys_only now req st r st' :
  handleLicenseActivate now req st = (Returned r, st') ->
  status r = 200 ->
  JS.isAscii (default "" (licenseKey req)) = true ->
  exists i k,
    licenseKeys st !! i = Some k
    /\ LicenseKey.isActive k = Some true
    /\ LicenseKey.key k = JS.toUpperCase (JS.removeDashes (default "" (licenseKey req)))
    /\ JS.isAscii (LicenseKey.key k) = true
    /\ JS.allChars JS.isKeyChar (LicenseKey.key k) = true.
Proof.
  intros Hrun Hok Hascii.
  destruct (handleLicenseActivate_ok_inv now req st r st' Hrun Hok)
    as (_ & _ & _ & u & k & e & _ & Hkey & _).
  apply (head_filter_lookup
           (fun d => LicenseKey.key d.2 = cleanKeyOf req
                     /\ LicenseKey.isActive d.2 = Some true)) in Hkey
    as [Hlook [Heq Hact]].
  exists k.1, k.2. split; [exact Hlook|]. split; [exact Hact|].
  split; [exact Heq|]. rewrite Heq. unfold cleanKeyOf.
  split; [apply normalise_ascii; exact Hascii | apply normalise_keyChars].
Qed.

(** X12.  Dashes and letter case of the license key of a request do not
    matter: two requests with the same email whose keys normalise to the
    same string are answered alike and leave the same store. *)
Theorem activate_key_spelling_irrelevant now req1 req2 st :
  email req1 = email req2 ->
  JS.toUpperCase (JS.removeDashes (default "" (licenseKey req1)))
  = JS.toUpperCase (JS.removeDashes (default "" (licenseKey req2))) ->
  JS.truthyStr (licenseKey req1) = true ->
  JS.truthyStr (licenseKey req2) = true ->
  JS.truthyStr (deviceId req1) = true ->
  JS.truthyStr (deviceId req2) = true ->
  handleLicenseActivate now req1 st = handleLicenseActivate now req2 st.
Proof.
  intros He Hclean Hk1 Hk2 Hd1 Hd2. unfold handleLicenseActivate.
  rewrite He, Hclean, Hk1, Hk2, Hd1, Hd2. reflexivity.
Qed.

(** The user snapshot after an activation, when one user has the email. *)
Lemma usersByEmail_activated now req st userDoc keyDoc expiry mail :
  Firestore.usersByEmail st mail = [userDoc] ->
  Firestore.usersByEmail (activatedStore now req userDoc keyDoc expiry st) mail
  = [(userDoc.1, clearedFlags userDoc.2)].
Proof.
  intros Hone. destruct userDoc as [i u].
  unfold Firestore.usersByEmail, activatedStore.
  cbn [users Firestore.withUsers Firestore.withLicenses fst snd].
  apply (filter_map_to_list_insert_single _ _ i u); [exact Hone|].
  cbn [snd clearedFlags User.email].
  apply (head_filter_lookup (fun d => User.email d.2 = mail) (users st) (i, u)).
  unfold Firestore.usersByEmail in Hone. rewrite Hone. reflexivity.
Qed.

Lemma activatedStore_again now req userDoc keyDoc expiry st :
  activatedStore now req (userDoc.1, clearedFlags userDoc.2) keyDoc expiry
    (activatedStore now req userDoc keyDoc expiry st)
  = activatedStore now req userDoc keyDoc expiry st.
Proof.
  unfold activatedStore, Firestore.withUsers, Firestore.withLicenses.
  cbn [licenses users userWarnings licenseKeys maintenance fst snd].
  rewrite lookup_insert_eq, !insert_insert_eq.
  destruct (licenses st !! userDoc.1); reflexivity.
Qed.

(** X13.  Activation can be repeated.  When one user has the email of
    the request, a second activation with the same request at the same
    instant, made on the store a successful activation left, succeeds
    again with the same answer and leaves that store as it is: the key
    is not consumed. *)
Theorem activate_twice_same_answer now req st r st' userDoc :
  handleLicenseActivate now req st = (Returned r, st') ->
  status r = 200 ->
  Firestore.usersByEmail st (email req) = [userDoc] ->
  handleLicenseActivate now req st' = (Returned r, st').
Proof.
  intros Hrun Hok Hone.
  destruct (handleLicenseActivate_ok_inv now req st r st' Hrun Hok)
    as (He & Hk & Hd & u & k & e & Hu & Hkey & Hused & Hexp).
  rewrite Hone in Hu. injection Hu as <-.
  assert (Hu : head (Firestore.usersByEmail st (email req)) = Some userDoc)
    by (rewrite Hone; reflexivity).
  rewrite (handleLicenseActivate_succeeds now req st userDoc k e He Hk Hd Hu Hkey
             Hused Hexp) in Hrun.
  injection Hrun as <- <-.
  rewrite (handleLicenseActivate_succeeds now req _ (userDoc.1, clearedFlags userDoc.2)
             k e He Hk Hd).
  - rewrite activatedStore_again. reflexivity.
  - rewrite (usersByEmail_activated now req st userDoc k e _ Hone). reflexivity.
  - exact Hkey.
  - exact Hused.
  - exact Hexp.
Qed.

(** X14.  Verify after activation.  When one user has the email of the
    request and the user document has no [id] field of its own (or one
    equal to its document id), a verify call at any later instant on the
    store a successful activation left reports the plan, limit and
    expiry the activation answered, a count of 0, no ban, no suspension,
    and lists neither the banned nor the suspended alert. *)
Theorem verify_after_activate {utils : LicenseUtils.Utils}
    now later req st va st' userDoc :
  handleLicenseActivate now req st = (Returned (json (VerdictBody va)), st') ->
  Firestore.usersByEmail st (email req) = [userDoc] ->
  licenseOwner userDoc = userDoc.1 ->
  exists v,
    handleLicenseVerify later req st' = (Returned (json (VerdictBody v)), st')
    /\ plan v = plan va
    /\ messageLimit v = messageLimit va
    /\ messageCount v = 0
    /\ expiresAt v = expiresAt va
    /\ isBanned v = false
    /\ isSuspended v = false
    /\ forall a, a ∈ alerts v ->
         title a <> "Compte Banni" /\ title a <> "Compte Suspendu".
Proof.
  intros Hrun Hone Hown.
  destruct (handleLicenseActivate_ok_inv now req st _ st' Hrun eq_refl)
    as (He & Hk & Hd & u & k & e & Hu & Hkey & Hused & Hexp).
  rewrite Hone in Hu. injection Hu as <-.
  assert (Hu : head (Firestore.usersByEmail st (email req)) = Some userDoc)
    by (rewrite Hone; reflexivity).
  rewrite (handleLicenseActivate_succeeds now req st userDoc k e He Hk Hd Hu Hkey
             Hused Hexp) in Hrun.
  injection Hrun as <- <-.
  set (st' := activatedStore now req userDoc k e st).
  set (userDoc' := (userDoc.1, clearedFlags userDoc.2)).
  assert (Hu' : head (Firestore.usersByEmail st' (email req)) = Some userDoc').
  { unfold st'. rewrite (usersByEmail_activated now req st userDoc k e _ Hone).
    reflexivity. }
  assert (Hown' : licenseOwner userDoc' = userDoc.1) by exact Hown.
  assert (Hl' : exists lic', licenses st' !! licenseOwner userDoc' = Some lic'
                  /\ LicenseDoc.plan lic' = LicenseKey.plan k.2
                  /\ LicenseDoc.messageLimit lic'
                     = Some (JS.orZero (LicenseKey.messageLimit k.2))
                  /\ LicenseDoc.messageCount lic' = Some 0
                  /\ LicenseDoc.expiresAt lic' = e).
  { rewrite Hown'. unfold st', activatedStore.
    cbn [licenses Firestore.withUsers Firestore.withLicenses].
    rewrite lookup_insert_eq. eexists. split; [reflexivity|].
    destruct (licenses st !! userDoc.1); repeat split. }
  destruct Hl' as (lic' & Hl' & Hplan & Hlim & Hcount & Hexpiry).
  rewrite (handleLicenseVerify_licensed later req st' userDoc' lic' He Hd Hu' Hl').
  eexists. split; [reflexivity|].
  cbn [plan messageLimit messageCount expiresAt isBanned isSuspended alerts].
  rewrite Hplan, Hlim, Hcount, Hexpiry.
  repeat match goal with |- _ /\ _ => split end; try reflexivity.
  intros a Ha.
  destruct (account_alerts_in_alertsFor later userDoc'.2 lic') as [Hb Hs].
  split; intros Hti.
  - assert (Hx : JS.truthyBool (User.isBanned userDoc'.2) = true)
      by (apply Hb; exists a; split; assumption).
    discriminate.
  - assert (Hx : JS.truthyBool (User.isSuspended userDoc'.2) = true)
      by (apply Hs; exists a; split; assumption).
    discriminate.
Qed.

(** X15.  The activation writes the license under the document id of
    the user, the verify handler reads it under the [id] field of the
    user document when that field is set.  When the two differ and no
    license is stored under the [id] field, a verify call on the store a
    successful activation left still gives the free-tier verdict with
    [valid = false]. *)
Theorem verify_after_activate_other_id {utils : LicenseUtils.Utils}
    now later req st r st' userDoc :
  handleLicenseActivate now req st = (Returned r, st') ->
  status r = 200 ->
  Firestore.usersByEmail st (email req) = [userDoc] ->
  licenseOwner userDoc <> userDoc.1 ->
  licenses st !! licenseOwner userDoc = None ->
  exists v,
    handleLicenseVerify later req st' = (Returned (json (VerdictBody v)), st')
    /\ valid v = false
    /\ plan v = "Gratuit"
    /\ messageLimit v = 10.
Proof.
  intros Hrun Hok Hone Hother Hnone.
  destruct (handleLicenseActivate_ok_inv now req st r st' Hrun Hok)
    as (He & Hk & Hd & u & k & e & Hu & Hkey & Hused & Hexp).
  rewrite Hone in Hu. injection Hu as <-.
  assert (Hu : head (Firestore.usersByEmail st (email req)) = Some userDoc)
    by (rewrite Hone; reflexivity).
  rewrite (handleLicenseActivate_succeeds now req st userDoc k e He Hk Hd Hu Hkey
             Hused Hexp) in Hrun.
  injection Hrun as _ <-.
  set (st' := activatedStore now req userDoc k e st).
  set (userDoc' := (userDoc.1, clearedFlags userDoc.2)).
  assert (Hu' : head (Firestore.usersByEmail st' (email req)) = Some userDoc').
  { unfold st'. rewrite (usersByEmail_activated now req st userDoc k e _ Hone).
    reflexivity. }
  assert (Hl' : licenses st' !! licenseOwner userDoc' = None).
  { change (licenseOwner userDoc') with (licenseOwner userDoc).
    unfold st', activatedStore.
    cbn [licenses Firestore.withUsers Firestore.withLicenses].
    rewrite lookup_insert_ne by congruence. exact Hnone. }
  rewrite (handleLicenseVerify_no_license later req st' userDoc' He Hd Hu' Hl').
  eexists. split; [reflexivity|]. repeat split.
Qed.

(** ** The message counter *)

(** The answer of a counted message, and the store it leaves. *)
Lemma handleIncrementMessageCount_counts req st userDoc lic :
  JS.truthyStr (email req) = true ->
  head (Firestore.usersByEmail st (email req)) = Some userDoc ->
  licenses st !! userDoc.1 = Some lic ->
  handleIncrementMessageCount req st
  = (Returned {| counterStatus := 200;
                 counterBody :=
                   Counted true (JS.orZero (LicenseDoc.messageCount lic) + 1)
                     (LicenseDoc.messageLimit lic) |},
     Firestore.withLicenses
       (insert userDoc.1
          (countFields (JS.orZero (LicenseDoc.messageCount lic) + 1) lic)) st).
Proof.
  intros He Hu Hl. apply head_cons_inv in Hu as [rest Hu].
  unfold handleIncrementMessageCount. unfold_calls.
  rewrite He. cbn [negb]. rewrite Hu, Hl.
  unfold Firestore.updateLicense. rewrite Hl. reflexivity.
Qed.

(** X16.  The counter handler always answers, with status 200, 400 or
    404.  It answers 200 exactly when the request has an email, some
    user document has it, and the first such user has a license
    document under its document id; every other answer leaves the store
    as it was. *)
Theorem increment_status_by_exit req st :
  exists r st',
    handleIncrementMessageCount req st = (Returned r, st')
    /\ counterStatus r ∈ [200; 400; 404]
    /\ (counterStatus r <> 200 -> st' = st)
    /\ (counterStatus r = 200
        <-> JS.truthyStr (email req) = true
            /\ exists userDoc,
                 head (Firestore.usersByEmail st (email req)) = Some userDoc
                 /\ is_Some (licenses st !! userDoc.1)).
Proof.
  destruct (JS.truthyStr (email req)) eqn:He.
  - destruct (Firestore.usersByEmail st (email req)) as [|userDoc rest] eqn:Hu.
    + unfold handleIncrementMessageCount. unfold_calls.
      rewrite He. cbn [negb]. rewrite Hu.
      do 2 eexists. split; [reflexivity|]. cbn [counterStatus].
      split; [set_solver|]. split; [reflexivity|].
      split; [discriminate|]. intros (_ & ud & Hud & _). discriminate.
    + destruct (licenses st !! userDoc.1) as [lic|] eqn:Hl.
      * rewrite (handleIncrementMessageCount_counts req st userDoc lic He);
          [|rewrite Hu; reflexivity | exact Hl].
        do 2 eexists. split; [reflexivity|]. cbn [counterStatus].
        split; [set_solver|]. split; [intros Hne; exfalso; apply Hne; reflexivity|].
        split; [|reflexivity]. intros _. split; [reflexivity|].
        exists userDoc. split; [reflexivity|]. rewrite Hl. eexists. reflexivity.
      * unfold handleIncrementMessageCount. unfold_calls.
        rewrite He. cbn [negb]. rewrite Hu, Hl.
        do 2 eexists. split; [reflexivity|]. cbn [counterStatus].
        split; [set_solver|]. split; [reflexivity|].
        split; [discriminate|]. intros (_ & ud & Hud & Hsome).
        injection Hud as <-. rewrite Hl in Hsome. destruct Hsome as [x Hx].
        discriminate.
  - unfold handleIncrementMessageCount. unfold_calls. rewrite He.
    do 2 eexists. split; [reflexivity|]. cbn [counterStatus].
    split; [set_solver|]. split; [reflexivity|].
    split; [discriminate|]. intros [Hx _]. discriminate.
Qed.

(** X17.  A counted message adds one to the stored count (a missing
    count reads as 0) and answers the new count with the stored limit.
    Nothing else is looked at: the count is raised whatever the limit,
    the expiry, the plan and the ban or suspension of the user are.  The
    other fields of the license, the licenses of other ids and the rest
    of the store are untouched. *)
Theorem increment_adds_one_unconditionally req st userDoc lic :
  JS.truthyStr (email req) = true ->
  head (Firestore.usersByEmail st (email req)) = Some userDoc ->
  licenses st !! userDoc.1 = Some lic ->
  exists st' lic',
    handleIncrementMessageCount req st
    = (Returned {| counterStatus := 200;
                   counterBody :=
                     Counted true (JS.orZero (LicenseDoc.messageCount lic) + 1)
                       (LicenseDoc.messageLimit lic) |}, st')
    /\ licenses st' !! userDoc.1 = Some lic'
    /\ LicenseDoc.messageCount lic'
       = Some (JS.orZero (LicenseDoc.messageCount lic) + 1)
    /\ LicenseDoc.messageLimit lic' = LicenseDoc.messageLimit lic
    /\ LicenseDoc.plan lic' = LicenseDoc.plan lic
    /\ LicenseDoc.expiresAt lic' = LicenseDoc.expiresAt lic
    /\ LicenseDoc.licenseKey lic' = LicenseDoc.licenseKey lic
    /\ LicenseDoc.isActive lic' = LicenseDoc.isActive lic
    /\ LicenseDoc.lastResetDate lic' = LicenseDoc.lastResetDate lic
    /\ LicenseDoc.userId lic' = LicenseDoc.userId lic
    /\ (forall j, j <> userDoc.1 -> licenses st' !! j = licenses st !! j)
    /\ users st' = users st
    /\ userWarnings st' = userWarnings st
    /\ licenseKeys st' = licenseKeys st
    /\ maintenance st' = maintenance st.
Proof.
  intros He Hu Hl.
  rewrite (handleIncrementMessageCount_counts req st userDoc lic He Hu Hl).
  do 2 eexists. split; [reflexivity|].
  cbn [licenses users userWarnings licenseKeys maintenance Firestore.withLicenses].
  rewrite lookup_insert_eq. split; [reflexivity|].
  repeat match goal with |- _ /\ _ => split end; try reflexivity.
  intros j Hj. rewrite lookup_insert_ne by congruence. reflexivity.
Qed.

(** X18.  [n] counted messages in a row add [n] to the stored count,
    without regard to the limit, and leave the limit as it is. *)
Theorem increment_n_times_adds_n n req st userDoc lic :
  JS.truthyStr (email req) = true ->
  head (Firestore.usersByEmail st (email req)) = Some userDoc ->
  licenses st !! userDoc.1 = Some lic ->
  exists lic',
    licenses (incrementTimes n req st) !! userDoc.1 = Some lic'
    /\ JS.orZero (LicenseDoc.messageCount lic')
       = JS.orZero (LicenseDoc.messageCount lic) + Z.of_nat n
    /\ LicenseDoc.messageLimit lic' = LicenseDoc.messageLimit lic.
Proof.
  intros He. revert st lic.
  induction n as [|n IH]; intros st lic Hu Hl.
  - exists lic. cbn [incrementTimes]. split; [exact Hl|]. split; [lia | reflexivity].
  - cbn [incrementTimes].
    rewrite (handleIncrementMessageCount_counts req st userDoc lic He Hu Hl).
    cbn [snd].
    destruct (IH (Firestore.withLicenses
                    (insert userDoc.1
                       (countFields (JS.orZero (LicenseDoc.messageCount lic) + 1) lic))
                    st)
                (countFields (JS.orZero (LicenseDoc.messageCount lic) + 1) lic))
      as (lic' & Hl' & Hcount & Hlimit).
    + exact Hu.
    + cbn [licenses Firestore.withLicenses]. apply lookup_insert_eq.
    + exists lic'. split; [exact Hl'|]. split; [|exact Hlimit].
      rewrite Hcount. cbn [countFields LicenseDoc.messageCount JS.orZero]. lia.
Qed.

(** X19.  Verify after a counted message.  When the user document has no
    [id] field of its own (or one equal to its document id), a verify
    call on the store a counted message left reports the raised count,
    and reports [canSendMessage = false] once the raised count has
    reached the stored limit, or when no limit is stored, whatever the
    license utilities answer. *)
Theorem verify_after_increment {utils : LicenseUtils.Utils}
    now req st userDoc lic :
  JS.truthyStr (email req) = true ->
  JS.truthyStr (deviceId req) = true ->
  head (Firestore.usersByEmail st (email req)) = Some userDoc ->
  licenses st !! userDoc.1 = Some lic ->
  licenseOwner userDoc = userDoc.1 ->
  exists v,
    handleLicenseVerify now req (handleIncrementMessageCount req st).2
    = (Returned (json (VerdictBody v)), (handleIncrementMessageCount req st).2)
    /\ messageCount v = JS.orZero (LicenseDoc.messageCount lic) + 1
    /\ messageLimit v = JS.orZero (LicenseDoc.messageLimit lic)
    /\ (forall limit, LicenseDoc.messageLimit lic = Some limit ->
          limit <= JS.orZero (LicenseDoc.messageCount lic) + 1 ->
          canSendMessage v = false)
    /\ (LicenseDoc.messageLimit lic = None -> canSendMessage v = false).
Proof.
  intros He Hd Hu Hl Hown.
  rewrite (handleIncrementMessageCount_counts req st userDoc lic He Hu Hl).
  cbn [snd].
  set (lic' := countFields (JS.orZero (LicenseDoc.messageCount lic) + 1) lic).
  set (st' := Firestore.withLicenses (insert userDoc.1 lic') st).
  assert (Hl' : licenses st' !! licenseOwner userDoc = Some lic').
  { rewrite Hown. unfold st'. cbn [licenses Firestore.withLicenses].
    apply lookup_insert_eq. }
  rewrite (handleLicenseVerify_licensed now req st' userDoc lic' He Hd Hu Hl').
  eexists. split; [reflexivity|].
  cbn [messageCount messageLimit canSendMessage lic' countFields
       LicenseDoc.messageCount LicenseDoc.messageLimit JS.orZero].
  split; [reflexivity|]. split; [reflexivity|]. split.
  - intros limit Hlim Hle. rewrite Hlim. cbn [JS.lt].
    replace (_ <? limit) with false by lia.
    rewrite andb_false_r. reflexivity.
  - intros Hnone. rewrite Hnone. cbn [JS.lt]. rewrite andb_false_r. reflexivity.
Qed.

(** ** Admin verification and the admin role *)

(** A string with a given prefix is the prefix followed by what
    [substring] leaves. *)
Lemma prefix_substringFrom (p s : string) :
  String.prefix p s = true -> s = p +:+ JS.substringFrom (String.length p) s.
Proof.
  revert s. induction p as [|c p IH]; intros s Hp; [reflexivity|].
  destruct s as [|c' s]; [discriminate|]. cbn in Hp.
  destruct (ascii_dec c c') as [->|]; [|discriminate].
  change (String c' s
          = String c' (p +:+ JS.substringFrom (String.length p) s)).
  f_equal. apply IH. exact Hp.
Qed.

Lemma substringFrom_app (p s : string) :
  JS.substringFrom (String.length p) (p +:+ s) = s.
Proof.
  induction p as [|c p IH]; [reflexivity|].
  change (JS.substringFrom (String.length p) (p +:+ s) = s). exact IH.
Qed.

Lemma prefix_app (p s : string) : String.prefix p (p +:+ s) = true.
Proof.
  induction p as [|c p IH]; [destruct s; reflexivity|].
  change (String.prefix (String c p) (String c (p +:+ s)) = true).
  cbn [String.prefix]. destruct (ascii_dec c c); [exact IH | congruence].
Qed.

(** X20.  [verifyAdminToken] answers [isAdmin: true] in one case only:
    the authorization header is "Bearer " followed by a token, the
    provider accepts exactly that token, and the decoded token carries
    custom claims whose [admin] is the boolean [true] (a string or a
    number does not count).  The answer then carries the uid and email
    of the decoded token. *)
Theorem verifyAdminToken_admin_iff (auth : AdminAuth.Auth) req r :
  AdminAuth.verifyAdminToken req = Returned r /\ AdminAuth.isAdmin r = true
  <-> exists token decoded claims,
        AdminAuth.authorization req = Some ("Bearer " +:+ token)
        /\ AdminAuth.verifyIdToken token = Returned decoded
        /\ AdminAuth.customClaims decoded = Some claims
        /\ AdminAuth.admin claims = Some (JS.VBool true)
        /\ r = {| AdminAuth.isAdmin := true;
                  AdminAuth.resultUid := Some (AdminAuth.uid decoded);
                  AdminAuth.resultEmail := AdminAuth.email decoded |}.
Proof.
  unfold AdminAuth.verifyAdminToken, otry, obind. split.
  - intros [Hrun Hadm].
    destruct (AdminAuth.authorization req) as [h|] eqn:Hh;
      [|cbn in Hrun; injection Hrun as <-; discriminate].
    change (default "" (Some h)) with h in Hrun.
    destruct (negb (JS.truthyStr (Some h)) || negb (JS.startsWith "Bearer " h))
      eqn:Hguard; [cbn in Hrun; injection Hrun as <-; discriminate|].
    apply orb_false_elim in Hguard as [_ Hpre]. apply negb_false_iff in Hpre.
    apply prefix_substringFrom in Hpre. cbn [String.length] in Hpre.
    destruct (AdminAuth.verifyIdToken (JS.substringFrom 7 h)) as [d|e] eqn:Hv;
      [|cbn in Hrun; injection Hrun as <-; discriminate].
    cbv beta iota zeta in Hrun. injection Hrun as <-. cbn [AdminAuth.isAdmin] in Hadm.
    exists (JS.substringFrom 7 h), d.
    destruct (AdminAuth.customClaims d) as [c|]; [|discriminate].
    cbn [from_option id] in Hadm. exists c.
    destruct (AdminAuth.admin c) as [[[|]| |]|] eqn:Hc; try discriminate.
    split; [congruence|]. split; [exact Hv|]. split; [reflexivity|].
    split; [reflexivity|]. cbn [from_option id]. rewrite Hc. reflexivity.
  - intros (t & d & c & Hh & Hv & Hc & Ha & ->). split; [|reflexivity].
    rewrite Hh. cbn [from_option id]. unfold JS.startsWith.
    rewrite (prefix_app "Bearer " t).
    change 7%nat with (String.length "Bearer ").
    rewrite substringFrom_app, Hv, Hc. cbn [from_option id]. rewrite Ha. reflexivity.
Qed.

(** X21.  [isAdminUser] answers [true] in one case only: the provider
    has the user, and the custom claims of the user carry [admin] as the
    boolean [true]; a user without custom claims is not an admin. *)
Theorem isAdminUser_true_iff (auth : AdminAuth.Auth) uid :
  AdminAuth.isAdminUser uid = Returned true
  <-> exists record claims,
        AdminAuth.getUser uid = Returned record
        /\ AdminAuth.userCustomClaims record = Some claims
        /\ AdminAuth.admin claims = Some (JS.VBool true).
Proof.
  unfold AdminAuth.isAdminUser, otry, obind. split.
  - destruct (AdminAuth.getUser uid) as [rec|e] eqn:Hg; [|discriminate].
    intros Hrun. injection Hrun as Hrun.
    destruct (AdminAuth.userCustomClaims rec) as [c|] eqn:Hcl; [|discriminate].
    cbn [from_option id] in Hrun.
    destruct (AdminAuth.admin c) as [[[|]| |]|] eqn:Hc; try discriminate.
    exists rec, c. split; [reflexivity|]. split; [exact Hcl | exact Hc].
  - intros (rec & c & Hg & Hc & Ha). rewrite Hg, Hc. cbn [from_option id].
    rewrite Ha. reflexivity.
Qed.

(** X22.  Granting then checking.  [setAdminRole] on a user the provider
    has succeeds, logs nothing, and [isAdminUser] on the provider it
    leaves answers [true] for that user and what it answered before for
    every other user. *)
Theorem setAdminRole_then_isAdminUser verify p uid record :
  RoleManager.records p !! uid = Some record ->
  exists p',
    RoleManager.setAdminRole uid p = (Returned tt, p')
    /\ RoleManager.console p' = RoleManager.console p
    /\ AdminAuth.isAdminUser (auth := RoleManager.authOf verify p') uid
       = Returned true
    /\ forall other, other <> uid ->
         AdminAuth.isAdminUser (auth := RoleManager.authOf verify p') other
         = AdminAuth.isAdminUser (auth := RoleManager.authOf verify p) other.
Proof.
  intros Hrec.
  unfold RoleManager.setAdminRole, RoleManager.logAndRethrow,
    RoleManager.setCustomUserClaims. rewrite Hrec.
  eexists. split; [reflexivity|]. split; [reflexivity|].
  unfold AdminAuth.isAdminUser, otry, obind.
  cbn [AdminAuth.getUser RoleManager.authOf].
  unfold RoleManager.getUserOf. cbn [RoleManager.records]. split.
  - rewrite lookup_insert_eq. reflexivity.
  - intros other Hne. rewrite lookup_insert_ne by congruence. reflexivity.
Qed.

(** X23.  Revoking then checking.  [removeAdminRole] on a user the
    provider has succeeds, logs nothing, and [isAdminUser] on the
    provider it leaves answers [false] for that user; so does revoking
    right after granting. *)
Theorem removeAdminRole_then_isAdminUser verify p uid record :
  RoleManager.records p !! uid = Some record ->
  (exists p',
     RoleManager.removeAdminRole uid p = (Returned tt, p')
     /\ RoleManager.console p' = RoleManager.console p
     /\ AdminAuth.isAdminUser (auth := RoleManager.authOf verify p') uid
        = Returned false)
  /\ AdminAuth.isAdminUser
       (auth := RoleManager.authOf verify
                  (RoleManager.removeAdminRole uid
                     (RoleManager.setAdminRole uid p).2).2) uid
     = Returned false.
Proof.
  intros Hrec. split.
  - unfold RoleManager.removeAdminRole, RoleManager.logAndRethrow,
      RoleManager.setCustomUserClaims. rewrite Hrec.
    eexists. split; [reflexivity|]. split; [reflexivity|].
    unfold AdminAuth.isAdminUser, otry, obind.
    cbn [AdminAuth.getUser RoleManager.authOf].
    unfold RoleManager.getUserOf. cbn [RoleManager.records].
    rewrite lookup_insert_eq. reflexivity.
  - unfold RoleManager.setAdminRole, RoleManager.logAndRethrow,
      RoleManager.setCustomUserClaims. rewrite Hrec. cbn [snd].
    unfold RoleManager.removeAdminRole, RoleManager.logAndRethrow,
      RoleManager.setCustomUserClaims. cbn [RoleManager.records].
    rewrite lookup_insert_eq. cbn [snd].
    unfold AdminAuth.isAdminUser, otry, obind.
    cbn [AdminAuth.getUser RoleManager.authOf].
    unfold RoleManager.getUserOf. cbn [RoleManager.records].
    rewrite lookup_insert_eq. reflexivity.
Qed.

(** X24.  A role change on a user the provider does not have is not
    swallowed: [setAdminRole] and [removeAdminRole] throw the error of
    the provider, after writing one line with it to the error console,
    and leave the records as they were; [isAdminUser] on the same user
    answers [false] without throwing. *)
Theorem role_change_on_unknown_user_rethrows verify p uid :
  RoleManager.records p !! uid = None ->
  let err := ProviderError "auth/user-not-found" in
  RoleManager.setAdminRole uid p
  = (Thrown err,
     {| RoleManager.records := RoleManager.records p;
        RoleManager.console :=
          (RoleManager.console p ++ [("Error setting admin role:", err)])%list |})
  /\ RoleManager.removeAdminRole uid p
     = (Thrown err,
        {| RoleManager.records := RoleManager.records p;
           RoleManager.console :=
             (RoleManager.console p ++ [("Error removing admin role:", err)])%list |})
  /\ AdminAuth.isAdminUser (auth := RoleManager.authOf verify p) uid
     = Returned false.
Proof.
  intros Hnone err.
  unfold RoleManager.setAdminRole, RoleManager.removeAdminRole,
    RoleManager.logAndRethrow, RoleManager.setCustomUserClaims,
    RoleManager.consoleError.
  rewrite Hnone. split; [reflexivity|]. split; [reflexivity|].
  unfold AdminAuth.isAdminUser, otry, obind.
  cbn [AdminAuth.getUser RoleManager.authOf]. unfold RoleManager.getUserOf.
  rewrite Hnone. reflexivity.
Qed.

(** ** The service account *)

Lemma unescapeNewlines_head (c : ascii) (s : string) (y : ascii) (r : string) :
  FirebaseAdmin.unescapeNewlines (String c s) = String y r ->
  y = "010"%char \/ y = c.
Proof.
  cbn [FirebaseAdmin.unescapeNewlines].
  destruct s as [|c' s'']; [intros H; injection H as <- _; right; reflexivity|].
  destruct (Ascii.eqb c "\"%char && Ascii.eqb c' "n"%char);
    intros H; injection H as <- _; [left | right]; reflexivity.
Qed.

Lemma unescapeNewlines_clean_upto (n : nat) (s : string) :
  (String.length s <= n)%nat ->
  FirebaseAdmin.hasEscapedNewline (FirebaseAdmin.unescapeNewlines s) = false.
Proof.
  revert s. induction n as [|n IH]; intros s Hlen.
  - destruct s; [reflexivity | cbn in Hlen; lia].
  - destruct s as [|c [|c' s'']]; [reflexivity | reflexivity |].
    change (FirebaseAdmin.unescapeNewlines (String c (String c' s'')))
      with (if Ascii.eqb c "\"%char && Ascii.eqb c' "n"%char
            then String "010"%char (FirebaseAdmin.unescapeNewlines s'')
            else String c (FirebaseAdmin.unescapeNewlines (String c' s''))).
    destruct (Ascii.eqb c "\"%char && Ascii.eqb c' "n"%char) eqn:Hesc.
    + assert (Hrest : FirebaseAdmin.hasEscapedNewline
                        (FirebaseAdmin.unescapeNewlines s'') = false).
      { apply IH. cbn in Hlen. lia. }
      destruct (FirebaseAdmin.unescapeNewlines s'') as [|y r]; [reflexivity|].
      change (Ascii.eqb "010"%char "\"%char && Ascii.eqb y "n"%char
              || FirebaseAdmin.hasEscapedNewline (String y r) = false).
      rewrite Hrest. reflexivity.
    + assert (Hrest : FirebaseAdmin.hasEscapedNewline
                        (FirebaseAdmin.unescapeNewlines (String c' s'')) = false).
      { apply IH. cbn in Hlen. cbn. lia. }
      destruct (FirebaseAdmin.unescapeNewlines (String c' s'')) as [|y r] eqn:E;
        [reflexivity|].
      change (Ascii.eqb c "\"%char && Ascii.eqb y "n"%char
              || FirebaseAdmin.hasEscapedNewline (String y r) = false).
      rewrite Hrest, orb_false_r.
      destruct (unescapeNewlines_head c' s'' y r E) as [-> | ->];
        [apply andb_false_r | exact Hesc].
Qed.

Lemma unescapeNewlines_without_escape (s : string) :
  FirebaseAdmin.hasEscapedNewline s = false ->
  FirebaseAdmin.unescapeNewlines s = s.
Proof.
  destruct s as [|c s]; [reflexivity|]. revert c.
  induction s as [|c' s IH]; intros c Hno; [reflexivity|].
  change (Ascii.eqb c "\"%char && Ascii.eqb c' "n"%char
          || FirebaseAdmin.hasEscapedNewline (String c' s) = false) in Hno.
  apply orb_false_elim in Hno as [Hesc Hrest].
  change (FirebaseAdmin.unescapeNewlines (String c (String c' s)))
    with (if Ascii.eqb c "\"%char && Ascii.eqb c' "n"%char
          then String "010"%char (FirebaseAdmin.unescapeNewlines s)
          else String c (FirebaseAdmin.unescapeNewlines (String c' s))).
  rewrite Hesc, (IH c' Hrest). reflexivity.
Qed.

(** X25.  The private key of the service account is absent exactly when
    FIREBASE_PRIVATE_KEY is unset or empty.  Otherwise it is the
    variable with every backslash-n pair turned into a line feed: no such
    pair is left in it, converting it again changes nothing, and a
    variable without such a pair is taken as it is. *)
Theorem serviceAccount_private_key (env : gmap string string) :
  (FirebaseAdmin.private_key (FirebaseAdmin.serviceAccount env) = None
   <-> env !! "FIREBASE_PRIVATE_KEY" = None
       \/ env !! "FIREBASE_PRIVATE_KEY" = Some "")
  /\ (forall key,
        FirebaseAdmin.private_key (FirebaseAdmin.serviceAccount env) = Some key ->
        FirebaseAdmin.hasEscapedNewline key = false
        /\ FirebaseAdmin.unescapeNewlines key = key)
  /\ (forall raw,
        env !! "FIREBASE_PRIVATE_KEY" = Some raw -> raw <> "" ->
        FirebaseAdmin.hasEscapedNewline raw = false ->
        FirebaseAdmin.private_key (FirebaseAdmin.serviceAccount env) = Some raw).
Proof.
  unfold FirebaseAdmin.serviceAccount. cbn [FirebaseAdmin.private_key].
  destruct (env !! "FIREBASE_PRIVATE_KEY") as [[|c raw]|]; cbn [JS.truthyStr].
  - split; [split; [intros _; right; reflexivity | reflexivity]|].
    split; [intros key H; discriminate|]. intros raw H Hne. congruence.
  - split; [split; [discriminate | intros [H | H]; discriminate]|].
    split.
    + intros key H. injection H as <-. cbn [from_option id].
      assert (Hclean : FirebaseAdmin.hasEscapedNewline
                         (FirebaseAdmin.unescapeNewlines (String c raw)) = false)
        by (apply (unescapeNewlines_clean_upto (String.length (String c raw))); lia).
      split; [exact Hclean|]. apply unescapeNewlines_without_escape. exact Hclean.
    + intros raw' H _ Hno. injection H as <-. cbn [from_option id].
      rewrite (unescapeNewlines_without_escape _ Hno). reflexivity.
  - split; [split; [intros _; left; reflexivity | reflexivity]|].
    split; [intros key H; discriminate|]. intros raw H. discriminate.
Qed.

(** ** The further properties at concrete stores *)

Section FurtherConcrete.

Import Examples Scenarios.

Lemma verify_ignores_key_and_device_witness :
  handleLicenseVerify (utils := utils0) now0 (request mail) proStore
  = handleLicenseVerify (utils := utils0) now0 activationPlain proStore.
Proof.
  apply (verify_ignores_key_and_device (utils := utils0) now0 (request mail)
           activationPlain proStore); reflexivity.
Defined.

Lemma verify_expiry_alerts_exclusive_witness :
  exists v,
    handleLicenseVerify (utils := utils0) now0 (request mail) expiredPro
    = (Returned (json (VerdictBody v)), expiredPro)
    /\ (length (alerts v) <= 3)%nat.
Proof.
  destruct (verify_expiry_alerts_exclusive (utils := utils0) now0 (request mail)
              expiredPro (aliceDoc None None)
              (license "Pro" (Some 5) (Some 100) (now0 - day)))
    as (v & Hv & _ & Hlen & _); try (vm_compute; reflexivity).
  exists v. split; assumption.
Defined.

Lemma verify_account_alerts_match_flags_witness :
  exists v before,
    handleLicenseVerify (utils := utils0) now0 (request mail) bannedSuspendedStore
    = (Returned (json (VerdictBody v)), bannedSuspendedStore)
    /\ alerts v = (before ++ [bannedAlert (Some "spam"); suspendedAlert])%list.
Proof.
  destruct (verify_account_alerts_match_flags (utils := utils0) now0 (request mail)
              bannedSuspendedStore ("u1", bannedSuspended) proLicense)
    as (v & Hv & _ & _ & Hboth); try (vm_compute; reflexivity).
  assert (Hflags : isBanned v = true /\ isSuspended v = true).
  { pose proof Hv as Hrun. vm_compute in Hrun. injection Hrun as <-.
    split; reflexivity. }
  destruct (Hboth (proj1 Hflags) (proj2 Hflags)) as [before Hal].
  exists v, before. split; assumption.
Defined.

Lemma verify_lists_unread_warnings_witness :
  exists v,
    handleLicenseVerify (utils := utils0) now0 (request mail) warnedStore
    = (Returned (json (VerdictBody v)), warnedStore)
    /\ {| warningId := "w1"; warningIsRead := Some false;
          warningMessage := "first" |} ∈ warnings v.
Proof.
  destruct (verify_lists_unread_warnings (utils := utils0) now0 (request mail)
              warnedStore (aliceDoc None None) proLicense)
    as (v & Hv & Hw); try (vm_compute; reflexivity).
  exists v. split; [exact Hv|]. apply Hw.
  exists "w1", {| WarningDoc.id := None; WarningDoc.isRead := Some false;
                  WarningDoc.message := "first" |}.
  split; [vm_compute; reflexivity|]. split; reflexivity.
Defined.

Lemma activate_refuses_inactive_key_witness :
  handleLicenseActivate now0 activation
    (keyStoreWith (Some false) (Some (now0 + 30 * day)))
  = (Returned (statusJson 404 (ErrorBody None "Invalid or inactive license key")),
     keyStoreWith (Some false) (Some (now0 + 30 * day))).
Proof.
  apply (activate_refuses_inactive_key now0 activation
           (keyStoreWith (Some false) (Some (now0 + 30 * day)))
           (aliceDoc None None)); try (vm_compute; reflexivity).
  intros i k Hi _. cbn [licenseKeys keyStoreWith] in Hi.
  apply lookup_singleton_Some in Hi as [_ <-]. discriminate.
Defined.

Lemma activate_invalid_expiry_fails_witness :
  handleLicenseActivate now0 activation (keyStoreWith (Some true) None)
  = (Returned (statusJson 500 (ErrorBody None "License activation failed")),
     keyStoreWith (Some true) None).
Proof.
  apply (activate_invalid_expiry_fails now0 activation
           (keyStoreWith (Some true) None) (aliceDoc None None)
           ("k1", {| LicenseKey.key := "ABCD1234";
                     LicenseKey.plan := "Pro";
                     LicenseKey.messageLimit := Some 100;
                     LicenseKey.expiresAt := None;
                     LicenseKey.isActive := Some true;
                     LicenseKey.usedBy := None |}));
    try (vm_compute; reflexivity).
  left. reflexivity.
Defined.

Lemma activated_run :
  handleLicenseActivate now0 activation (keyStore None)
  = (Returned (json (VerdictBody activatedVerdict)), activatedKeyStore).
Proof. vm_compute. reflexivity. Qed.

Lemma activate_success_effect_witness :
  exists lic',
    licenses activatedKeyStore !! "u1" = Some lic'
    /\ LicenseDoc.messageCount lic' = Some 0
    /\ LicenseDoc.lastResetDate lic' = Some now0.
Proof.
  destruct (activate_success_effect now0 activation (keyStore None)
              (json (VerdictBody activatedVerdict)) activatedKeyStore
              activated_run eq_refl)
    as (u & k & e & lic' & user' & Hu & _ & _ & Hl & _ & _ & _ & _ & Hc & _ & Hr & _).
  vm_compute in Hu. injection Hu as <-.
  exists lic'. split; [exact Hl|]. split; [exact Hc | exact Hr].
Defined.

Lemma activate_redeems_normalised_keys_only_witness :
  exists i k,
    licenseKeys (keyStore None) !! i = Some k
    /\ LicenseKey.key k = "ABCD1234".
Proof.
  destruct (activate_redeems_normalised_keys_only now0 activation (keyStore None)
              (json (VerdictBody activatedVerdict)) activatedKeyStore
              activated_run eq_refl eq_refl)
    as (i & k & Hi & _ & Hk & _).
  exists i, k. split; [exact Hi | exact Hk].
Defined.

Lemma activate_key_spelling_irrelevant_witness :
  handleLicenseActivate now0 activation (keyStore None)
  = handleLicenseActivate now0 activationPlain (keyStore None).
Proof.
  apply (activate_key_spelling_irrelevant now0 activation activationPlain
           (keyStore None)); reflexivity.
Defined.

Lemma activate_twice_same_answer_witness :
  handleLicenseActivate now0 activation activatedKeyStore
  = (Returned (json (VerdictBody activatedVerdict)), activatedKeyStore).
Proof.
  apply (activate_twice_same_answer now0 activation (keyStore None)
           (json (VerdictBody activatedVerdict)) activatedKeyStore
           (aliceDoc None None) activated_run eq_refl).
  vm_compute. reflexivity.
Defined.

Lemma verify_after_activate_witness :
  exists v,
    handleLicenseVerify (utils := utils0) (now0 + day) activation activatedKeyStore
    = (Returned (json (VerdictBody v)), activatedKeyStore)
    /\ plan v = "Pro" /\ messageCount v = 0 /\ isBanned v = false.
Proof.
  destruct (verify_after_activate (utils := utils0) now0 (now0 + day) activation
              (keyStore None) activatedVerdict activatedKeyStore
              (aliceDoc None None) activated_run)
    as (v & Hv & Hp & _ & Hc & _ & Hb & _); try (vm_compute; reflexivity).
  exists v. repeat split; assumption.
Defined.

Lemma legacy_activated_run :
  handleLicenseActivate now0 activation legacyKeyStore
  = (Returned (json (VerdictBody activatedVerdict)), legacyActivatedStore).
Proof. vm_compute. reflexivity. Qed.

Lemma verify_after_activate_other_id_witness :
  exists v,
    handleLicenseVerify (utils := utils0) (now0 + day) activation
      legacyActivatedStore
    = (Returned (json (VerdictBody v)), legacyActivatedStore)
    /\ valid v = false /\ plan v = "Gratuit".
Proof.
  destruct (verify_after_activate_other_id (utils := utils0) now0 (now0 + day)
              activation legacyKeyStore (json (VerdictBody activatedVerdict))
              legacyActivatedStore ("u1", legacyAlice) legacy_activated_run eq_refl)
    as (v & Hv & Hvalid & Hp & _); try (vm_compute; reflexivity).
  - vm_compute. discriminate.
  - exists v. repeat split; assumption.
Defined.

Lemma increment_adds_one_unconditionally_witness :
  exists st',
    handleIncrementMessageCount (request mail) fullStore
    = (Returned {| counterStatus := 200;
                   counterBody := Counted true 101 (Some 100) |}, st').
Proof.
  destruct (increment_adds_one_unconditionally (request mail) fullStore
              (aliceDoc None None) fullLicense)
    as (st' & lic' & Hrun & _); try (vm_compute; reflexivity).
  exists st'. exact Hrun.
Defined.

Lemma increment_n_times_adds_n_witness :
  exists lic',
    licenses (incrementTimes 3 (request mail) fullStore) !! "u1" = Some lic'
    /\ JS.orZero (LicenseDoc.messageCount lic') = 103
    /\ LicenseDoc.messageLimit lic' = Some 100.
Proof.
  apply (increment_n_times_adds_n 3 (request mail) fullStore
           (aliceDoc None None) fullLicense); vm_compute; reflexivity.
Defined.

Lemma verify_after_increment_witness :
  exists v,
    handleLicenseVerify (utils := utils0) now0 (request mail)
      (handleIncrementMessageCount (request mail) proStore).2
    = (Returned (json (VerdictBody v)),
       (handleIncrementMessageCount (request mail) proStore).2)
    /\ messageCount v = 6.
Proof.
  destruct (verify_after_increment (utils := utils0) now0 (request mail) proStore
              (aliceDoc None None)
              (license "Pro" (Some 5) (Some 100) (now0 + 3 * day)))
    as (v & Hv & Hc & _); try (vm_compute; reflexivity).
  exists v. split; [exact Hv | exact Hc].
Defined.

Lemma setAdminRole_then_isAdminUser_witness :
  exists p',
    RoleManager.setAdminRole "u1" oneUser = (Returned tt, p')
    /\ AdminAuth.isAdminUser (auth := RoleManager.authOf rejectTokens p') "u1"
       = Returned true.
Proof.
  destruct (setAdminRole_then_isAdminUser rejectTokens oneUser "u1"
              {| AdminAuth.userCustomClaims := None |})
    as (p' & Hset & _ & Hadm & _); [vm_compute; reflexivity|].
  exists p'. split; assumption.
Defined.

Lemma removeAdminRole_then_isAdminUser_witness :
  AdminAuth.isAdminUser
    (auth := RoleManager.authOf rejectTokens
               (RoleManager.removeAdminRole "u1"
                  (RoleManager.setAdminRole "u1" oneUser).2).2) "u1"
  = Returned false.
Proof.
  apply (removeAdminRole_then_isAdminUser rejectTokens oneUser "u1"
           {| AdminAuth.userCustomClaims := None |}).
  vm_compute. reflexivity.
Defined.

Lemma role_change_on_unknown_user_rethrows_witness :
  RoleManager.setAdminRole "ghost" oneUser
  = (Thrown (ProviderError "auth/user-not-found"),
     {| RoleManager.records := RoleManager.records oneUser;
        RoleManager.console :=
          [("Error setting admin role:", ProviderError "auth/user-not-found")] |}).
Proof.
  apply (role_change_on_unknown_user_rethrows rejectTokens oneUser "ghost").
  vm_compute. reflexivity.
Defined.

End FurtherConcrete.
